(** * zookeeper_cli: a shallow embedding of [zookeeper_cli.py]

    The script is a command-line client of a ZooKeeper ensemble, written on
    top of the Kazoo library.  Everything it does is an effect: it talks to
    the ensemble through the global [zk], reads files relative to the
    working directory of the process (which [check_file] changes), prints,
    raises, and leaves through [exit].  The embedding threads one [world]
    value through a small state-and-outcome monad, and keeps two logs in
    it: the calls made to the client, and the calls made to the file
    system.

    What the script does not define is a parameter ([Env]): the Kazoo
    client, as a record of methods over a state of its own; the file
    system, as a map from absolute paths to files and directories; the
    JSON round trip of [check_json]; the texts of the errors of [loads]
    and [decode]; and the recursion limit of the interpreter, counted in
    frames of [ZNode.__init__].

    Conventions.  The interpreter is Python 3.  A [str] is written as its
    UTF-8 bytes (the two box-drawing characters of the tree view are three
    bytes each), and a [bytes] as itself; where the two meet, at
    [zk.set] and at [decode], the model tells them apart.  Files hold
    UTF-8 text, read in text mode with universal newlines, and standard
    output takes UTF-8.  The kernel resolves a path component by
    component; there are no symbolic links.  [argparse] is modelled on a
    command line already cut into (option, value) pairs: an option of
    the script is spelled as its short name, its long name or a
    beginning of its long name that goes past the two dashes; any other
    option starts with no short name, is the beginning of no long name
    and holds no equals sign; no value starts with a dash; the help
    option is left out, and what [argparse] writes goes to standard
    error and is not kept.  Signals are not modelled. *)

From Stdlib Require Import List String Ascii ZArith Lia Bool Arith.
Import ListNotations.
Open Scope string_scope.

(* ===================================================================== *)
(** ** Python [str] methods used by the script *)
(* ===================================================================== *)

Module PyStr.

(** [s.startswith(p)] *)
Definition startswith (s p : string) : bool := String.prefix p s.

(** [s.endswith(p)] for a one-character [p] *)
Fixpoint endswith_char (s : string) (c : ascii) : bool :=
  match s with
  | EmptyString => false
  | String a EmptyString => Ascii.eqb a c
  | String _ t => endswith_char t c
  end.

(** [sub in s] *)
Fixpoint contains (s sub : string) : bool :=
  String.prefix sub s ||
  match s with
  | EmptyString => false
  | String _ t => contains t sub
  end.

(** [s * n] *)
Fixpoint mul (s : string) (n : nat) : string :=
  match n with
  | O => ""
  | S k => s ++ mul s k
  end.

(** The one-byte characters for which [str.isspace] holds. *)
Definition isspace (c : ascii) : bool :=
  let n := nat_of_ascii c in
  (Nat.leb 9 n && Nat.leb n 13) || (Nat.leb 28 n && Nat.leb n 32).

Definition byte_is (c : ascii) (n : nat) : bool := Nat.eqb (nat_of_ascii c) n.

Definition byte_in (c : ascii) (lo hi : nat) : bool :=
  Nat.leb lo (nat_of_ascii c) && Nat.leb (nat_of_ascii c) hi.

(** The two-byte characters for which [str.isspace] holds: U+0085 and
    U+00A0. *)
Definition isspace2 (b1 b2 : ascii) : bool :=
  byte_is b1 194 && (byte_is b2 133 || byte_is b2 160).

(** The three-byte ones: U+1680, U+2000 to U+200A, U+2028, U+2029,
    U+202F, U+205F and U+3000. *)
Definition isspace3 (b1 b2 b3 : ascii) : bool :=
  (byte_is b1 225 && byte_is b2 154 && byte_is b3 128)
  || (byte_is b1 226 && byte_is b2 128
      && (byte_in b3 128 138 || byte_is b3 168 || byte_is b3 169 || byte_is b3 175))
  || (byte_is b1 226 && byte_is b2 129 && byte_is b3 159)
  || (byte_is b1 227 && byte_is b2 128 && byte_is b3 128).

Fixpoint rev_onto (s acc : string) : string :=
  match s with
  | EmptyString => acc
  | String c t => rev_onto t (String c acc)
  end.

(** [s[::-1]], byte by byte *)
Definition reverse (s : string) : string := rev_onto s EmptyString.

(** A text given last byte first, without the white space it starts
    with. *)
Fixpoint lstrip_reversed (r : string) : string :=
  match r with
  | EmptyString => EmptyString
  | String b3 t =>
      if isspace b3 then lstrip_reversed t
      else
        match t with
        | EmptyString => r
        | String b2 t' =>
            if isspace2 b2 b3 then lstrip_reversed t'
            else
              match t' with
              | EmptyString => r
              | String b1 t'' =>
                  if isspace3 b1 b2 b3 then lstrip_reversed t'' else r
              end
        end
  end.

(** [s.rstrip()] *)
Definition rstrip (s : string) : string := reverse (lstrip_reversed (reverse s)).

(** Whether [b.decode()] returns: the bytes are well-formed UTF-8 (no
    overlong form, no surrogate, nothing above U+10FFFF).  The text it
    returns is written with the same bytes. *)
Fixpoint decodable (b : string) : bool :=
  match b with
  | EmptyString => true
  | String c t =>
      if byte_in c 0 127 then decodable t
      else if byte_in c 194 223 then
        match t with
        | String c1 t1 => byte_in c1 128 191 && decodable t1
        | _ => false
        end
      else if byte_in c 224 239 then
        match t with
        | String c1 (String c2 t2) =>
            byte_in c1 (if byte_is c 224 then 160 else 128)
                       (if byte_is c 237 then 159 else 191)
            && byte_in c2 128 191 && decodable t2
        | _ => false
        end
      else if byte_in c 240 244 then
        match t with
        | String c1 (String c2 (String c3 t3)) =>
            byte_in c1 (if byte_is c 240 then 144 else 128)
                       (if byte_is c 244 then 143 else 191)
            && byte_in c2 128 191 && byte_in c3 128 191 && decodable t3
        | _ => false
        end
      else false
  end.

(** [s.rstrip('/')] *)
Fixpoint rstrip_char (x : ascii) (s : string) : string :=
  match s with
  | EmptyString => EmptyString
  | String c t =>
      match rstrip_char x t with
      | EmptyString => if Ascii.eqb c x then EmptyString else String c EmptyString
      | t' => String c t'
      end
  end.

(** [s.split(sep, 1)]: at most one cut, at the first [sep]. *)
Fixpoint split1 (sep : ascii) (s : string) : list string :=
  match s with
  | EmptyString => [EmptyString]
  | String c t =>
      if Ascii.eqb c sep then [EmptyString; t]
      else match split1 sep t with
           | h :: r => String c h :: r
           | [] => [String c EmptyString]
           end
  end.

(** [s.split(sep)] *)
Fixpoint split (sep : ascii) (s : string) : list string :=
  match s with
  | EmptyString => [EmptyString]
  | String c t =>
      if Ascii.eqb c sep then EmptyString :: split sep t
      else match split sep t with
           | h :: r => String c h :: r
           | [] => [String c EmptyString]
           end
  end.

(** Text-mode reading translates "\r\n" and a lone "\r" to "\n". *)
Definition LF : ascii := ascii_of_nat 10.
Definition CR : ascii := ascii_of_nat 13.

Fixpoint universal_newlines (s : string) : string :=
  match s with
  | EmptyString => EmptyString
  | String c t =>
      if Ascii.eqb c CR then
        match t with
        | String d t' =>
            if Ascii.eqb d LF then String LF (universal_newlines t')
            else String LF (universal_newlines t)
        | EmptyString => String LF EmptyString
        end
      else String c (universal_newlines t)
  end.

(** [f.readlines()] on translated text: every line keeps its "\n"; a last
    line without one is kept as it is, and no empty last line is made. *)
Fixpoint splitlines_keep (s : string) : list string :=
  match s with
  | EmptyString => []
  | String c t =>
      if Ascii.eqb c LF then String c EmptyString :: splitlines_keep t
      else match splitlines_keep t with
           | h :: r => String c h :: r
           | [] => [String c EmptyString]
           end
  end.

End PyStr.

(* ===================================================================== *)
(** ** [os.path] (posixpath) *)
(* ===================================================================== *)

Module posixpath.

Definition sep : ascii := "/"%char.

(** [i = p.rfind('/') + 1; head, tail = p[:i], p[i:]]; [None] when [p]
    holds no slash (then [i = 0]). *)
Fixpoint cut_last_sep (p : string) : option (string * string) :=
  match p with
  | EmptyString => None
  | String c t =>
      match cut_last_sep t with
      | Some (h, tl) => Some (String c h, tl)
      | None => if Ascii.eqb c sep then Some (String c EmptyString, t) else None
      end
  end.

Definition basename (p : string) : string :=
  match cut_last_sep p with
  | Some (_, tl) => tl
  | None => p
  end.

Definition all_sep (s : string) : bool :=
  String.eqb (PyStr.rstrip_char sep s) "".

Definition dirname (p : string) : string :=
  match cut_last_sep p with
  | Some (h, _) => if all_sep h then h else PyStr.rstrip_char sep h
  | None => ""
  end.

Definition isabs (p : string) : bool := PyStr.startswith p "/".

(** [join(a, b)] *)
Definition join (a b : string) : string :=
  if PyStr.startswith b "/" then b
  else if String.eqb a "" || PyStr.endswith_char a sep then a ++ b
  else a ++ "/" ++ b.

(** The loop of [normpath] over the components. *)
Fixpoint norm_comps (rooted : bool) (acc : list string) (comps : list string)
  : list string :=
  match comps with
  | [] => rev acc
  | comp :: rest =>
      if String.eqb comp "" || String.eqb comp "." then norm_comps rooted acc rest
      else if negb (String.eqb comp "..")
              || (negb rooted && match acc with [] => true | _ => false end)
              || match acc with last :: _ => String.eqb last ".." | [] => false end
           then norm_comps rooted (comp :: acc) rest
           else match acc with
                | _ :: acc' => norm_comps rooted acc' rest
                | [] => norm_comps rooted acc rest
                end
  end.

Definition normpath (path : string) : string :=
  if String.eqb path "" then "."
  else
    let initial_slashes : nat :=
      if PyStr.startswith path "/" then
        if PyStr.startswith path "//" && negb (PyStr.startswith path "///")
        then 2 else 1
      else 0 in
    let comps := norm_comps (negb (Nat.eqb initial_slashes 0)) []
                            (PyStr.split sep path) in
    let p := PyStr.mul "/" initial_slashes ++ String.concat "/" comps in
    if String.eqb p "" then "." else p.

(** [abspath(p)] under the working directory [cwd]. *)
Definition abspath (cwd p : string) : string :=
  normpath (if isabs p then p else join cwd p).

End posixpath.

Import PyStr posixpath.

(* ===================================================================== *)
(** ** Exceptions, outcomes and the effect monad *)
(* ===================================================================== *)

(** The exception classes that matter to the script's two [except] clauses.
    In Kazoo, [NoNodeError] is a subclass of [ZookeeperError], itself a
    subclass of [KazooException].  [UnicodeDecodeError] is a subclass of
    [ValueError]. *)
Inductive exn : Type :=
| NoNodeError (msg : string)
| ZookeeperError (msg : string)      (* any other ZookeeperError subclass *)
| KazooException (msg : string)      (* Kazoo errors outside ZookeeperError *)
| ValueError (msg : string)
| OSError (msg : string)
| TypeError (msg : string)
| AttributeError (msg : string)
| NameError (msg : string)
| RecursionError (msg : string)
| UnicodeDecodeError (msg : string).

(** [str(e)] *)
Definition exn_str (e : exn) : string :=
  match e with
  | NoNodeError m | ZookeeperError m | KazooException m | ValueError m
  | OSError m | TypeError m | AttributeError m | NameError m
  | RecursionError m | UnicodeDecodeError m => m
  end.

(** [isinstance(e, NoNodeError)] *)
Definition is_NoNodeError (e : exn) : bool :=
  match e with NoNodeError _ => true | _ => false end.

(** [isinstance(e, ZookeeperError)] *)
Definition is_ZookeeperError (e : exn) : bool :=
  match e with NoNodeError _ | ZookeeperError _ => true | _ => false end.

(** How a call ends: it returns, raises, or leaves through [exit(code)]
    ([SystemExit], which no [except] clause of the script catches). *)
Inductive outcome (A : Type) : Type :=
| Return (a : A)
| Raise (e : exn)
| Exit (code : Z).
Arguments Return {A} a.
Arguments Raise {A} e.
Arguments Exit {A} code.

(** What a file-system path names. *)
Inductive fsnode : Type :=
| File (content : string)
| Directory.

(** A value handed to [zk.set]: a [str] or a [bytes].  Kazoo takes
    [bytes] (and [None]) and raises [TypeError] on a [str]. *)
Inductive pyvalue : Type :=
| Str (s : string)
| Bytes (b : string).

(** What a client method answers. *)
Inductive reply (A : Type) : Type :=
| Ok (a : A)
| Err (e : exn).
Arguments Ok {A} a.
Arguments Err {A} e.

(** The methods of [kazoo.client.KazooClient] the script calls, over the
    client's own state [conn]. *)
Record KazooClient : Type := {
  conn : Type;
  kz_new : string -> conn;                                   (* KazooClient(hosts=...) *)
  kz_start : conn -> reply unit * conn;                      (* zk.start(timeout=5) *)
  kz_connected : conn -> bool;                               (* zk.connected *)
  kz_stop : conn -> reply unit * conn;
  kz_close : conn -> reply unit * conn;
  kz_exists : string -> conn -> reply bool * conn;           (* truth of zk.exists(p) *)
  kz_get_children : string -> conn -> reply (list string) * conn;
  kz_get : string -> conn -> reply (option string) * conn;   (* zk.get(p)[0], bytes *)
  kz_set : string -> option pyvalue -> conn -> reply unit * conn;
  kz_ensure_path : string -> conn -> reply unit * conn;
  kz_delete : string -> conn -> reply unit * conn;           (* recursive=True *)
  kz_command : string -> conn -> reply string * conn
}.

(** The calls, as they are logged. *)
Inductive zk_call : Type :=
| CStart
| CStop
| CClose
| CExists (path : string)
| CGetChildren (path : string)
| CGet (path : string)
| CSet (path : string) (value : option pyvalue)
| CEnsurePath (path : string)
| CDelete (path : string)
| CCommand (cmd : string).

(** The operating-system calls on files: the path as it was passed, and
    its absolute form under the directory of the process. *)
Inductive fs_call : Type :=
| FAccess (path abs : string)
| FOpen (path abs : string)
| FChdir (dir : string).

(** The [argparse] namespace [args]; [value] is the attribute that
    [cmd_set] adds (a [bytes]). *)
Record Args : Type := {
  target : string;
  action : string;
  znode : option string;
  values : option pyvalue;
  input : option string;
  value : option string
}.

Definition default_args : Args :=
  {| target := "zk:2181"; action := ""; znode := None; values := None;
     input := None; value := None |}.

(** Truth value: [None] is false, and so is an empty [str] or [bytes]. *)
Class Truth (A : Type) : Type := truth : A -> bool.

#[global] Instance string_truth : Truth string :=
  fun s => negb (String.eqb s "").

#[global] Instance pyvalue_truth : Truth pyvalue :=
  fun v => match v with Str s | Bytes s => negb (String.eqb s "") end.

Arguments truth {A Truth} _ /.
Arguments string_truth _ /.
Arguments pyvalue_truth _ /.

Definition truthy {A : Type} `{Truth A} (o : option A) : bool :=
  match o with
  | Some x => truth x
  | None => false
  end.

(** The environment the script runs in. *)
Class Env : Type := {
  (** the Kazoo client *)
  kazoo : KazooClient;
  (** the file system, by absolute path without [.], [..] or a doubled
      slash: [None] is a path that names nothing, or nothing this process
      may read or search *)
  fs : string -> option fsnode;
  (** [dumps(loads(j), sort_keys=True, indent=4, separators=(',', ': '))];
      [None] when [loads] raises [ValueError] *)
  canonical : string -> option string;
  (** the text of the [ValueError] that [loads(j)] raises *)
  json_error : string -> string;
  (** the text of the [UnicodeDecodeError] that [b.decode()] raises *)
  decode_error : string -> string;
  (** the interpreter's recursion limit, in frames of [ZNode.__init__] *)
  recursion_limit : nat
}.

Section Script.

Context {E : Env}.

(** The process: the global [zk] ([None] while it is not in [globals()]),
    the global [args], the working directory, what was printed, and the
    log of the calls made to the client (with the exception each raised,
    if any) and to the file system. *)
Record world : Type := {
  zk : option (conn kazoo);
  args : Args;
  cwd : string;
  stdout : list string;
  calls : list (zk_call * option exn);
  fs_log : list fs_call
}.

Definition M (A : Type) : Type := world -> outcome A * world.

Definition ret {A} (a : A) : M A := fun w => (Return a, w).
Definition raise {A} (e : exn) : M A := fun w => (Raise e, w).
Definition exit {A} (code : Z) : M A := fun w => (Exit code, w).

Definition bind {A B} (m : M A) (k : A -> M B) : M B :=
  fun w =>
    match m w with
    | (Return a, w') => k a w'
    | (Raise e, w') => (Raise e, w')
    | (Exit c, w') => (Exit c, w')
    end.

(** [try: body / except <class> as e: handler e] *)
Definition try_except {A} (body : M A) (catches : exn -> bool)
           (handler : exn -> M A) : M A :=
  fun w =>
    match body w with
    | (Raise e, w') => if catches e then handler e w' else (Raise e, w')
    | r => r
    end.

(** [for x in l: body x] *)
Definition for_each {A} (body : A -> M unit) : list A -> M unit :=
  fix go (l : list A) : M unit :=
    match l with
    | [] => ret tt
    | x :: t => bind (body x) (fun _ => go t)
    end.

Notation "x <- m ;; k" := (bind m (fun x => k))
  (at level 61, m at next level, right associativity).
Notation "m ;; k" := (bind m (fun _ => k))
  (at level 61, right associativity).

(** *** Primitive effects *)

Definition with_zk (z : option (conn kazoo)) (w : world) : world :=
  {| zk := z; args := args w; cwd := cwd w; stdout := stdout w;
     calls := calls w; fs_log := fs_log w |}.
Definition with_args (a : Args) (w : world) : world :=
  {| zk := zk w; args := a; cwd := cwd w; stdout := stdout w;
     calls := calls w; fs_log := fs_log w |}.
Definition with_cwd (d : string) (w : world) : world :=
  {| zk := zk w; args := args w; cwd := d; stdout := stdout w;
     calls := calls w; fs_log := fs_log w |}.
Definition with_stdout (o : list string) (w : world) : world :=
  {| zk := zk w; args := args w; cwd := cwd w; stdout := o;
     calls := calls w; fs_log := fs_log w |}.
Definition with_calls (l : list (zk_call * option exn)) (w : world) : world :=
  {| zk := zk w; args := args w; cwd := cwd w; stdout := stdout w;
     calls := l; fs_log := fs_log w |}.
Definition with_fs_log (l : list fs_call) (w : world) : world :=
  {| zk := zk w; args := args w; cwd := cwd w; stdout := stdout w;
     calls := calls w; fs_log := l |}.

Definition get_args : M Args := fun w => (Return (args w), w).
Definition set_args (a : Args) : M unit := fun w => (Return tt, with_args a w).
Definition getcwd : M string := fun w => (Return (cwd w), w).

(** [print(s)] *)
Definition print (s : string) : M unit :=
  fun w => (Return tt, with_stdout (stdout w ++ [s]) w).

(** A method call on the global [zk]. *)
Definition call {A} (c : zk_call) (op : conn kazoo -> reply A * conn kazoo) : M A :=
  fun w =>
    match zk w with
    | None => (Raise (NameError "name 'zk' is not defined"), w)
    | Some s =>
        match op s with
        | (Ok a, s') =>
            (Return a, with_calls (calls w ++ [(c, None)]) (with_zk (Some s') w))
        | (Err e, s') =>
            (Raise e, with_calls (calls w ++ [(c, Some e)]) (with_zk (Some s') w))
        end
    end.

(** Path resolution by the kernel, from the directory [cur] through the
    components that are left: every component is looked up in a
    directory, [..] is the parent, and an empty component or [.] stays. *)
Fixpoint walk (cur : string) (comps : list string) : option fsnode :=
  match comps with
  | [] => fs cur
  | c :: rest =>
      match fs cur with
      | Some Directory =>
          if String.eqb c "" || String.eqb c "." then walk cur rest
          else if String.eqb c ".." then walk (dirname cur) rest
          else walk (join cur c) rest
      | _ => None
      end
  end.

(** The kernel's name for the directory [d], which [os.getcwd] returns:
    one slash at the root. *)
Fixpoint single_root (d : string) : string :=
  match d with
  | String a (String b _ as r) =>
      if Ascii.eqb a sep && Ascii.eqb b sep then single_root r else d
  | _ => d
  end.

(** What the path [f] names for a process whose directory is [d]. *)
Definition resolve (d f : string) : option fsnode :=
  if String.eqb f "" then None
  else walk (if isabs f then "/" else single_root d) (split sep f).

(** [os.access(f, R_OK)] *)
Definition access (f : string) : M bool :=
  fun w =>
    (Return (match resolve (cwd w) f with Some _ => true | None => false end),
     with_fs_log (fs_log w ++ [FAccess f (abspath (cwd w) f)]) w).

(** [os.chdir(d)] *)
Definition chdir (d : string) : M unit :=
  fun w => (Return tt, with_fs_log (fs_log w ++ [FChdir d])
                         (with_cwd (single_root d) w)).

(** [open(f)]: the file object is its content.  The text of the
    [OSError] is the one for a directory and for a name that is not
    there. *)
Definition open_ (f : string) : M string :=
  fun w =>
    let w' := with_fs_log (fs_log w ++ [FOpen f (abspath (cwd w) f)]) w in
    match resolve (cwd w) f with
    | Some (File c) => (Return c, w')
    | Some Directory => (Raise (OSError ("[Errno 21] Is a directory: '" ++ f ++ "'")), w')
    | None => (Raise (OSError ("[Errno 2] No such file or directory: '" ++ f ++ "'")), w')
    end.

(** [f.read()] and [f.readlines()] *)
Definition read (f : string) : string := universal_newlines f.
Definition readlines (f : string) : list string :=
  splitlines_keep (universal_newlines f).

(** ['{0}'.format(o)] *)
Definition fmt (o : option string) : string :=
  match o with Some s => s | None => "None" end.

(** The path argument of a client method: Kazoo raises [TypeError] on
    anything that is not a string. *)
Definition as_path (o : option string) : M string :=
  match o with
  | Some s => ret s
  | None => raise (TypeError "Invalid type for 'path' (string expected)")
  end.

(** [key, path = l]: unpacking a list into two names. *)
Definition unpack2 (l : list string) : M (string * string) :=
  match l with
  | [] => raise (ValueError "not enough values to unpack (expected 2, got 0)")
  | [_] => raise (ValueError "not enough values to unpack (expected 2, got 1)")
  | [k; p] => ret (k, p)
  | _ => raise (ValueError "too many values to unpack (expected 2)")
  end.

(** *** The script *)

Definition check_json (j : string) : M string :=
  match canonical j with
  | Some c => ret c
  | None => raise (ValueError (json_error j))
  end.

Definition check_file (f : string) : M string :=
  ok <- access f ;;
  if negb ok then
    print ("Can't access or open file " ++ f) ;;
    exit 1
  else
    d <- getcwd ;;
    chdir (dirname (abspath d f)) ;;
    ret (basename f).

Definition tear_down (code : Z) : M unit :=
  fun w =>
    match zk w with
    | Some s =>
        if kz_connected kazoo s then
          (call CStop (kz_stop kazoo) ;; call CClose (kz_close kazoo) ;; exit code) w
        else exit code w
    | None => exit code w
    end.

Definition check_option (opt : option string) (message : string) : M unit :=
  if negb (truthy opt) then
    print message ;;
    tear_down 1
  else ret tt.

Definition set_up : M unit :=
  a <- get_args ;;
  (fun w => (Return tt, with_zk (Some (kz_new kazoo (target a))) w)) ;;
  call CStart (kz_start kazoo).

Definition check_znode_exists : M unit :=
  a <- get_args ;;
  check_option (znode a)
    "Option --znode (or -z) is mandatory with the selected action" ;;
  z <- as_path (znode a) ;;
  e <- call (CExists z) (kz_exists kazoo z) ;;
  if negb e then
    print ("ZNode " ++ fmt (znode a) ++ " does not exist.") ;;
    tear_down 1
  else ret tt.

Definition cmd_list : M unit :=
  check_znode_exists ;;
  a <- get_args ;;
  z <- as_path (znode a) ;;
  data <- call (CGetChildren z) (kz_get_children kazoo z) ;;
  match data with
  | [] => print ("Znode " ++ fmt (znode a) ++ " has no child")
  | _ => for_each print data
  end.

Definition cmd_status : M unit :=
  r <- call (CCommand "ruok") (kz_command kazoo "ruok") ;;
  if contains r "imok" then
    print "OK" ;;
    exit 0
  else
    print ("WARN - Server replied : " ++ r) ;;
    exit 1.

Definition cmd_get : M unit :=
  check_znode_exists ;;
  a <- get_args ;;
  z <- as_path (znode a) ;;
  d <- call (CGet z) (kz_get kazoo z) ;;
  match d with
  | Some b =>
      if decodable b then print (rstrip b)
      else raise (UnicodeDecodeError (decode_error b))
  | None => raise (AttributeError "'NoneType' object has no attribute 'decode'")
  end.

(** The second component of [zk.get] is a [ZnodeStat], which has no
    [decode]. *)
Definition cmd_stats : M unit :=
  check_znode_exists ;;
  a <- get_args ;;
  z <- as_path (znode a) ;;
  call (CGet z) (kz_get kazoo z) ;;
  raise (AttributeError "'ZnodeStat' object has no attribute 'decode'").

Definition cmd_del : M unit :=
  check_znode_exists ;;
  a <- get_args ;;
  (if match znode a with Some z => String.eqb z "/" | None => false end then
     print "ROOT cannot be deleted, exiting." ;;
     tear_down 1
   else ret tt) ;;
  print ("Deleting znode " ++ fmt (znode a)) ;;
  z <- as_path (znode a) ;;
  call (CDelete z) (kz_delete kazoo z).

Definition create_and_set_error (e : exn) : string :=
  "Error during creation/insertion of keys/values." ++ String LF "" ++
  "            Full error follows : " ++ String LF "" ++ " " ++ exn_str e.

(** The [try] block of [create_and_set]. *)
Definition create_and_set_try : M unit :=
  a <- get_args ;;
  z <- as_path (znode a) ;;
  e <- call (CExists z) (kz_exists kazoo z) ;;
  (if negb e then
     print ("Creating znode " ++ fmt (znode a)) ;;
     call (CEnsurePath z) (kz_ensure_path kazoo z)
   else ret tt) ;;
  call (CSet z (values a)) (kz_set kazoo z (values a)).

Definition create_and_set : M unit :=
  try_except create_and_set_try is_ZookeeperError
    (fun e => print (create_and_set_error e)).

(** The [bytes] of [check_json(...).encode()]. *)
Definition read_json_from_file (f : string) : M string :=
  check_json (rstrip (read f)).

Definition cmd_set : M unit :=
  a <- get_args ;;
  (if negb (truthy (input a)) && negb (truthy (values a)) then
     print "'Set' action needs option --input or --values positionned." ;;
     tear_down 1
   else ret tt) ;;
  check_option (znode a) "'Set' action needs --znode (or -z) positionned." ;;
  (if truthy (input a) then
     f <- open_ (fmt (input a)) ;;
     v <- read_json_from_file f ;;
     a' <- get_args ;;
     set_args {| target := target a'; action := action a'; znode := znode a';
                 values := values a'; input := input a'; value := Some v |}
   else ret tt) ;;
  create_and_set.

(** The body of the first loop of [cmd_deploy]. *)
Definition deploy_check (l : string) : M unit :=
  if startswith l "#" then ret tt
  else
    kp <- unpack2 (split1 ":" (rstrip l)) ;;
    check_file (snd kp) ;;
    ret tt.

(** The body of the second loop of [cmd_deploy]. *)
Definition deploy_apply (l : string) : M unit :=
  if startswith l "#" then ret tt
  else
    kp <- unpack2 (split1 ":" (rstrip l)) ;;
    p <- open_ (snd kp) ;;
    v <- read_json_from_file p ;;
    a <- get_args ;;
    set_args {| target := target a; action := action a; znode := znode a;
                values := Some (Bytes v); input := input a; value := value a |} ;;
    a <- get_args ;;
    set_args {| target := target a; action := action a; znode := Some (fst kp);
                values := values a; input := input a; value := value a |} ;;
    create_and_set.

Definition cmd_deploy : M unit :=
  a <- get_args ;;
  check_option (input a) "Deploy action needs an input file (-i or --input)" ;;
  f <- open_ (fmt (input a)) ;;
  for_each deploy_check (readlines f) ;;
  for_each deploy_apply (readlines f).

(** [ZNode.show_tree_node], with [self.level] and [c] as arguments. *)
Definition show_tree_node (level : nat) (c : string) : M unit :=
  if Nat.ltb 1 level then
    print (mul "    " level ++ "└" ++ mul "─" level ++ " " ++ basename c)
  else if Nat.eqb level 1 then
    print ("  " ++ "└───" ++ " " ++ basename c)
  else
    print ("." ++ " " ++ basename c).

(** [ZNode.__init__]; [depth] counts the frames still available. *)
Fixpoint ZNode (depth : nat) (path : string) (level : nat) : M unit :=
  match depth with
  | O => raise (RecursionError "maximum recursion depth exceeded")
  | S depth' =>
      show_tree_node level path ;;
      try_except
        (children <- call (CGetChildren path) (kz_get_children kazoo path) ;;
         for_each (fun c => ZNode depth' (path ++ "/" ++ c) (level + 1)) children)
        is_NoNodeError
        (fun _ => ret tt)
  end.

Definition cmd_tree : M unit :=
  a <- get_args ;;
  (if negb (truthy (znode a)) then
     set_args {| target := target a; action := action a; znode := Some "/";
                 values := values a; input := input a; value := value a |}
   else ret tt) ;;
  a <- get_args ;;
  ZNode recursion_limit (fmt (znode a)) 0.

(** [parse_args] over the command line as (option, value) pairs, taken in
    order.  [argparse] leaves with status 2 on a value its [type]
    function rejects with [ValueError], on a value outside [choices], on
    an unknown option and on a missing [--action]; it takes the beginning
    of a long name for the name (the long names of the script differ in
    their first letter). *)
Definition action_choices : list string :=
  ["get"; "stats"; "set"; "deploy"; "tree"; "del"; "list"; "status"].

Definition is_opt (o long short : string) : bool :=
  String.eqb o short
  || (Nat.ltb 2 (String.length o) && startswith o "--" && startswith long o).

Fixpoint parse_opts (argv : list (string * string)) (seen_action unknown : bool)
         (a : Args) : M Args :=
  match argv with
  | [] => if seen_action && negb unknown then ret a else exit 2
  | (o, v) :: rest =>
      if is_opt o "--target" "-t" then
        parse_opts rest seen_action unknown
          {| target := v; action := action a; znode := znode a;
             values := values a; input := input a; value := value a |}
      else if is_opt o "--action" "-a" then
        if existsb (String.eqb v) action_choices then
          parse_opts rest true unknown
            {| target := target a; action := v; znode := znode a;
               values := values a; input := input a; value := value a |}
        else exit 2
      else if is_opt o "--znode" "-z" then
        parse_opts rest seen_action unknown
          {| target := target a; action := action a; znode := Some v;
             values := values a; input := input a; value := value a |}
      else if is_opt o "--values" "-v" then
        j <- try_except (check_json v)
               (fun e => match e with ValueError _ => true | _ => false end)
               (fun _ => exit 2) ;;
        parse_opts rest seen_action unknown
          {| target := target a; action := action a; znode := znode a;
             values := Some (Str j); input := input a; value := value a |}
      else if is_opt o "--input" "-i" then
        f <- check_file v ;;
        parse_opts rest seen_action unknown
          {| target := target a; action := action a; znode := znode a;
             values := values a; input := Some f; value := value a |}
      else parse_opts rest seen_action true a
  end.

Definition parse_args (argv : list (string * string)) : M Args :=
  parse_opts argv false false default_args.

Definition main (argv : list (string * string)) : M unit :=
  a <- parse_args argv ;;
  set_args a ;;
  set_up ;;
  (if contains (action a) "get" then cmd_get
   else if contains (action a) "stats" then cmd_stats
   else if contains (action a) "set" then cmd_set
   else if contains (action a) "deploy" then cmd_deploy
   else if contains (action a) "del" then cmd_del
   else if contains (action a) "list" then cmd_list
   else if contains (action a) "tree" then cmd_tree
   else if contains (action a) "status" then cmd_status
   else ret tt) ;;
  tear_down 0.

End Script.

Arguments world : clear implicits.
Arguments M : clear implicits.

(* ===================================================================== *)
(** ** A scripted ensemble, for running the script on concrete inputs *)
(* ===================================================================== *)

Module Fixture.

Definition hex_digit (n : nat) : ascii :=
  ascii_of_nat (if Nat.ltb n 10 then 48 + n else 87 + n).

(** Two lower-case hexadecimal digits *)
Definition hex_byte (c : ascii) : string :=
  String (hex_digit (Nat.div (nat_of_ascii c) 16))
    (String (hex_digit (Nat.modulo (nat_of_ascii c) 16)) EmptyString).

Fixpoint lookup {A} (k : string) (l : list (string * A)) : option A :=
  match l with
  | [] => None
  | (k', v) :: t => if String.eqb k k' then Some v else lookup k t
  end.

Fixpoint update {A} (k : string) (v : A) (l : list (string * A)) : list (string * A) :=
  match l with
  | [] => [(k, v)]
  | (k', v') :: t => if String.eqb k k' then (k, v) :: t else (k', v') :: update k v t
  end.

(** An ensemble whose answers are tabulated. *)
Record server : Type := {
  up : bool;
  nodes : list (string * option string);          (* znodes and their data, bytes *)
  listing : list (string * reply (list string));  (* answers of get_children *)
  refuse : list (string * exn);                   (* paths whose set raises *)
  ruok : string                                   (* answer to "ruok" *)
}.

Definition set_up_flag (b : bool) (s : server) : server :=
  {| up := b; nodes := nodes s; listing := listing s; refuse := refuse s;
     ruok := ruok s |}.

Definition set_nodes (n : list (string * option string)) (s : server) : server :=
  {| up := up s; nodes := n; listing := listing s; refuse := refuse s;
     ruok := ruok s |}.

Definition data_of (v : option pyvalue) : option string :=
  match v with
  | Some (Bytes b) => Some b
  | _ => None
  end.

Definition client (s0 : server) : KazooClient :=
  {| conn := server;
     kz_new := fun _ => s0;
     kz_start := fun s => (Ok tt, set_up_flag true s);
     kz_connected := up;
     kz_stop := fun s => (Ok tt, set_up_flag false s);
     kz_close := fun s => (Ok tt, s);
     kz_exists := fun p s =>
       (Ok (match lookup p (nodes s) with Some _ => true | None => false end), s);
     kz_get_children := fun p s =>
       (match lookup p (listing s) with
        | Some r => r
        | None => Err (NoNodeError p)
        end, s);
     kz_get := fun p s =>
       (match lookup p (nodes s) with
        | Some d => Ok d
        | None => Err (NoNodeError p)
        end, s);
     kz_set := fun p v s =>
       match v with
       | Some (Str _) =>
           (Err (TypeError "Invalid type for 'value' (must be a byte string)"), s)
       | _ =>
           match lookup p (refuse s) with
           | Some e => (Err e, s)
           | None =>
               match lookup p (nodes s) with
               | Some _ => (Ok tt, set_nodes (update p (data_of v) (nodes s)) s)
               | None => (Err (NoNodeError p), s)
               end
           end
       end;
     kz_ensure_path := fun p s =>
       (Ok tt, match lookup p (nodes s) with
               | Some _ => s
               | None => set_nodes (nodes s ++ [(p, None)]) s
               end);
     kz_delete := fun p s =>
       (Ok tt, set_nodes (filter (fun kv => negb (String.eqb (fst kv) p)) (nodes s)) s);
     kz_command := fun _ s => (Ok (ruok s), s) |}.

(** The JSON round trip on the texts of the runs.  A natural number of
    at most 18 digits without a leading zero, [{}] and [[]] are JSON, and
    each is its own canonical form.  The one other text the runs hold,
    [not json], is rejected by [loads] at its first character; the
    fragment rejects every text it does not know, with that error. *)
Fixpoint digits (s : string) : bool :=
  match s with
  | EmptyString => true
  | String c t => byte_in c 48 57 && digits t
  end.

Definition natural (s : string) : bool :=
  match s with
  | EmptyString => false
  | String c t =>
      digits s && (negb (byte_is c 48) || String.eqb t "")
      && Nat.leb (String.length s) 18
  end.

Definition json_fragment (j : string) : option string :=
  if natural j || String.eqb j "{}" || String.eqb j "[]" then Some j else None.

Definition json_fragment_error (j : string) : string :=
  "Expecting value: line 1 column 1 (char 0)".

(** The error of [decode] on the bytes the runs use: a first byte that
    begins no character. *)
Definition decode_error_at_start (b : string) : string :=
  match b with
  | String c _ =>
      "'utf-8' codec can't decode byte 0x" ++ hex_byte c
      ++ " in position 0: invalid start byte"
  | EmptyString => ""
  end.

(** The directories of a table of files: the root, and every path that
    a path of the table lies under. *)
Definition is_directory (files : list (string * fsnode)) (p : string) : bool :=
  String.eqb p "/"
  || existsb (fun kv => startswith (fst kv) (p ++ "/")) files.

Definition table (files : list (string * fsnode)) (p : string) : option fsnode :=
  match lookup p files with
  | Some n => Some n
  | None => if is_directory files p then Some Directory else None
  end.

Definition env (s0 : server) (files : list (string * fsnode)) : Env :=
  {| kazoo := client s0;
     fs := table files;
     canonical := json_fragment;
     json_error := json_fragment_error;
     decode_error := decode_error_at_start;
     recursion_limit := 100 |}.

(** The process as the interpreter starts it in directory [d]. *)
Definition boot (E : Env) (d : string) : world E :=
  {| zk := None; args := default_args; cwd := d; stdout := [];
     calls := []; fs_log := [] |}.

Definition nl : string := String LF "".

Definition healthy : server :=
  {| up := false; nodes := [("/", None)]; listing := [("/", Ok [])];
     refuse := []; ruok := "imok" |}.

End Fixture.

(* ===================================================================== *)
(** ** Vocabulary of the properties *)
(* ===================================================================== *)

(** The (target, source) pair a mapping line holds, when it holds one. *)
Definition entry_of (l : string) : option (string * string) :=
  match split1 ":" (rstrip l) with
  | [k; p] => Some (k, p)
  | _ => None
  end.

(** The directory the process is in when the first loop of [cmd_deploy],
    started in [d], has gone through the lines [pre] without leaving. *)
Fixpoint scan_cwd (d : string) (pre : list string) : string :=
  match pre with
  | [] => d
  | l :: t =>
      if startswith l "#" then scan_cwd d t
      else match entry_of l with
           | Some (_, p) => scan_cwd (single_root (dirname (abspath d p))) t
           | None => scan_cwd d t
           end
  end.


(** The line of the tree view as the specification words it for depth 2
    and more: the indentation, then one glyph [g] repeated [d] times. *)
Definition claimed_line (g : string) (d : nat) (name : string) : string :=
  match d with
  | 0 => ". " ++ name
  | 1 => "  └─── " ++ name
  | _ => mul "    " d ++ mul g d ++ " " ++ name
  end.

Section Vocabulary.

Context {E : Env}.

(** The process once [open(args.input)] has returned in [cmd_deploy]. *)
Definition opened (w : world E) : world E :=
  with_fs_log (fs_log w ++ [FOpen (fmt (input (args w)))
                                  (abspath (cwd w) (fmt (input (args w))))]) w.

(** The two loops of [cmd_deploy]. *)
Definition deploy_scan (lines : list string) : M E unit :=
  for_each deploy_check lines.
Definition deploy_commit (lines : list string) : M E unit :=
  for_each deploy_apply lines.

(** The process when the second loop of [cmd_deploy] has read the payload
    [v] of the entry for [key] and is about to call [create_and_set]. *)
Definition staged (key v : string) (p : string) (w : world E) : world E :=
  let w1 := with_fs_log (fs_log w ++ [FOpen p (abspath (cwd w) p)]) w in
  with_args {| target := target (args w); action := action (args w);
               znode := Some key; values := Some (Bytes v);
               input := input (args w); value := value (args w) |} w1.

(** Every non-comment entry of [lines] was passed to [os.access]. *)
Definition all_entries_checked (lines : list string) (log : list fs_call) : Prop :=
  forall l k p, In l lines -> startswith l "#" = false ->
                entry_of l = Some (k, p) ->
                exists abs, In (FAccess p abs) log.

(** Every non-comment entry of [lines] had its node set. *)
Definition all_entries_set (lines : list string)
           (log : list (zk_call * option exn)) : Prop :=
  forall l k p, In l lines -> startswith l "#" = false ->
                entry_of l = Some (k, p) ->
                exists v r, In (CSet k v, r) log.



(** The line [show_tree_node] prints for [path] at depth [level]. *)
Definition tree_line (level : nat) (path : string) : string :=
  match level with
  | 0 => ". " ++ basename path
  | 1 => "  └─── " ++ basename path
  | _ => mul "    " level ++ "└" ++ mul "─" level ++ " " ++ basename path
  end.

End Vocabulary.

(* ===================================================================== *)
(** ** Vocabulary of the properties of the single actions *)
(* ===================================================================== *)

(** The kinds of client calls. *)
Definition is_exists (c : zk_call) : bool :=
  match c with CExists _ => true | _ => false end.
Definition is_get (c : zk_call) : bool :=
  match c with CGet _ => true | _ => false end.
Definition is_get_children (c : zk_call) : bool :=
  match c with CGetChildren _ => true | _ => false end.
Definition is_command (c : zk_call) : bool :=
  match c with CCommand _ => true | _ => false end.
Definition is_delete (c : zk_call) : bool :=
  match c with CDelete _ => true | _ => false end.
Definition is_write (c : zk_call) : bool :=
  match c with CSet _ _ | CEnsurePath _ => true | _ => false end.
Definition is_release (c : zk_call) : bool :=
  match c with CStop | CClose => true | _ => false end.
Definition no_call (c : zk_call) : bool := false.

(** The paths of the [exists] calls of a log, in order. *)
Definition exists_paths (log : list (zk_call * option exn)) : list string :=
  flat_map (fun c => match fst c with CExists p => [p] | _ => [] end) log.

(** The target paths of the entries of a mapping, in order. *)
Definition entry_keys (lines : list string) : list string :=
  flat_map (fun l => if startswith l "#" then []
                     else match entry_of l with
                          | Some (k, _) => [k]
                          | None => []
                          end) lines.

(** A line of a mapping file that is not a comment. *)
Definition is_entry_line (l : string) : bool := negb (startswith l "#").

Section ActionVocabulary.

Context {E : Env}.

(** The computation [m] only adds to the log of client calls, and only
    calls of the kinds [P]. *)
Definition sends {A} (P : zk_call -> bool) (m : M E A) : Prop :=
  forall w, exists new,
    calls (snd (m w)) = (calls w ++ new)%list /\
    forallb (fun c => P (fst c)) new = true.

(** The command that bears the name [name]. *)
Definition command_of (name : string) : M E unit :=
  if String.eqb name "get" then cmd_get
  else if String.eqb name "stats" then cmd_stats
  else if String.eqb name "set" then cmd_set
  else if String.eqb name "deploy" then cmd_deploy
  else if String.eqb name "del" then cmd_del
  else if String.eqb name "list" then cmd_list
  else if String.eqb name "tree" then cmd_tree
  else if String.eqb name "status" then cmd_status
  else ret tt.

(** The kinds of calls the command named [name] may make. *)
Definition footprint (name : string) (c : zk_call) : bool :=
  if String.eqb name "get" then is_exists c || is_get c || is_release c
  else if String.eqb name "stats" then is_exists c || is_get c || is_release c
  else if String.eqb name "set" then is_exists c || is_write c || is_release c
  else if String.eqb name "deploy" then is_exists c || is_write c || is_release c
  else if String.eqb name "del" then is_exists c || is_delete c || is_release c
  else if String.eqb name "list" then is_exists c || is_get_children c || is_release c
  else if String.eqb name "tree" then is_get_children c
  else if String.eqb name "status" then is_command c
  else false.

(** The client answers with a service error or not at all with an error
    when asked whether a node exists, to create it or to set it to a
    [bytes]. *)
Definition service_errors_only : Prop :=
  forall (z : string) (b : string) (s : conn kazoo),
    (forall e s', kz_exists kazoo z s = (Err e, s') -> is_ZookeeperError e = true) /\
    (forall e s', kz_ensure_path kazoo z s = (Err e, s') -> is_ZookeeperError e = true) /\
    (forall e s', kz_set kazoo z (Some (Bytes b)) s = (Err e, s') ->
                  is_ZookeeperError e = true).

(** The source of the entry [l] holds JSON, seen from directory [d]. *)
Definition entry_deployable (d : string) (l : string) : Prop :=
  startswith l "#" = true \/
  exists k p payload v,
    entry_of l = Some (k, p) /\
    resolve d p = Some (File payload) /\
    canonical (rstrip (read payload)) = Some v.

(** The listing of a node does not depend on the state of the client. *)
Definition snapshot : Prop :=
  forall (p : string) (s1 s2 : conn kazoo),
    fst (kz_get_children kazoo p s1) = fst (kz_get_children kazoo p s2).

(** What a walk from [path] in [w] has done when it ends in [w']: one
    listing per line printed, every one of a path below [path]. *)
Definition walked (path : string) (w w' : world E) : Prop :=
  (exists s, zk w' = Some s) /\
  exists new out,
    calls w' = (calls w ++ new)%list /\
    stdout w' = (stdout w ++ out)%list /\
    List.length out = List.length new /\
    Forall (fun c => exists p, fst c = CGetChildren p /\
                               String.prefix path p = true) new.

(** Two runs, started in [w1] and [w2] and ended as [r1] and [r2], that
    end the same way, still have a client, and have printed the same
    lines. *)
Definition same_render (w1 w2 : world E) (r1 r2 : outcome unit * world E) : Prop :=
  fst r1 = fst r2 /\
  (exists s, zk (snd r1) = Some s) /\
  (exists s, zk (snd r2) = Some s) /\
  exists out,
    stdout (snd r1) = (stdout w1 ++ out)%list /\
    stdout (snd r2) = (stdout w2 ++ out)%list.

End ActionVocabulary.

(* ===================================================================== *)
(** ** Concrete runs *)
(* ===================================================================== *)

Module Scenario.

Import Fixture.

(** A process whose client is [s], with the namespace [a], in directory
    [d], that has printed and called nothing yet. *)
Definition ready (E : Env) (s : conn kazoo) (a : Args) (d : string) : world E :=
  {| zk := Some s; args := a; cwd := d; stdout := []; calls := [];
     fs_log := [] |}.

Definition connected (s : server) : server := set_up_flag true s.

(** [args] after [--action deploy --input /m/map.txt]. *)
Definition deploy_args : Args :=
  {| target := "zk:2181"; action := "deploy"; znode := None; values := None;
     input := Some "map.txt"; value := None |}.

(** A mapping whose second entry names a file that does not exist. *)
Module Unreadable.
Definition pre : list string := ["# nodes" ++ nl; "/k1:a.json" ++ nl].
Definition line : string := "/k2:gone.json" ++ nl.
Definition post : list string := ["/k3:c.json" ++ nl].
Definition mapping : string := String.concat "" (pre ++ line :: post).
Definition files : list (string * fsnode) :=
  [("/m/map.txt", File mapping); ("/m/a.json", File "{}");
   ("/m/c.json", File "{}")].
Definition E : Env := env healthy files.
Definition w : world E := ready E (connected healthy) deploy_args "/m".
(** the process when the scan reaches the second entry *)
Definition w1 : world E := Eval vm_compute in snd (deploy_scan pre (opened w)).
End Unreadable.

(** A mapping whose two entries both name files that do not exist. *)
Module TwoUnreadable.
Definition lines : list string := ["/k1:gone1.json" ++ nl; "/k2:gone2.json" ++ nl].
Definition files : list (string * fsnode) :=
  [("/m/map.txt", File (String.concat "" lines))].
Definition E : Env := env healthy files.
Definition w : world E := ready E (connected healthy) deploy_args "/m".
End TwoUnreadable.

(** A mapping whose second entry names a file that is not JSON. *)
Module BadPayload.
Definition pre : list string := ["/k1:a.json" ++ nl].
Definition line : string := "/k2:bad.json" ++ nl.
Definition post : list string := ["/k3:c.json" ++ nl].
Definition mapping : string := String.concat "" (pre ++ line :: post).
Definition files : list (string * fsnode) :=
  [("/m/map.txt", File mapping); ("/m/a.json", File "{}");
   ("/m/bad.json", File "not json"); ("/m/c.json", File "{}")].
Definition E : Env := env healthy files.
Definition w : world E := ready E (connected healthy) deploy_args "/m".
Definition w0 : world E :=
  Eval vm_compute in snd (deploy_scan (readlines mapping) (opened w)).
Definition w1 : world E := Eval vm_compute in snd (deploy_commit pre w0).
End BadPayload.

(** Five valid entries; the ensemble refuses to set the third node. *)
Module Refused.
Definition pre : list string := ["/k1:a.json" ++ nl; "/k2:b.json" ++ nl].
Definition line : string := "/k3:c.json" ++ nl.
Definition post : list string := ["/k4:d.json" ++ nl; "/k5:e.json" ++ nl].
Definition mapping : string := String.concat "" (pre ++ line :: post).
Definition files : list (string * fsnode) :=
  [("/m/map.txt", File mapping); ("/m/a.json", File "1");
   ("/m/b.json", File "2"); ("/m/c.json", File "3");
   ("/m/d.json", File "4"); ("/m/e.json", File "5")].
Definition quota : exn := ZookeeperError "quota exceeded".
Definition ensemble : server :=
  {| up := false; nodes := [("/", None)]; listing := [];
     refuse := [("/k3", quota)]; ruok := "imok" |}.
Definition E : Env := env ensemble files.
Definition w : world E := ready E (connected ensemble) deploy_args "/m".
Definition w0 : world E :=
  Eval vm_compute in snd (deploy_scan (readlines mapping) (opened w)).
Definition w1 : world E := Eval vm_compute in snd (deploy_commit pre w0).
Definition w2 : world E :=
  Eval vm_compute in snd (create_and_set_try (staged "/k3" "3" "c.json" w1)).
End Refused.

(** A mapping whose first source is in a sub-directory. *)
Module Subdir.
Definition mapping : string := "/k1:sub/a.json" ++ nl ++ "/k2:b.json" ++ nl.
Definition files : list (string * fsnode) :=
  [("/m/map.txt", File mapping); ("/m/sub/a.json", File "{}");
   ("/m/b.json", File "{}")].
Definition E : Env := env healthy files.
Definition argv : list (string * string) :=
  [("--action", "deploy"); ("--input", "/m/map.txt")].
End Subdir.

(** A namespace /a with children b and c; b is gone when it is listed. *)
Module Tree.
Definition ensemble : server :=
  {| up := false; nodes := [];
     listing := [("/a", Ok ["b"; "c"]); ("/a/c", Ok ["d"]); ("/a/c/d", Ok [])];
     refuse := []; ruok := "imok" |}.
Definition E : Env := env ensemble [].
Definition tree_args : Args :=
  {| target := "zk:2181"; action := "tree"; znode := Some "/a"; values := None;
     input := None; value := None |}.
Definition w : world E := ready E (connected ensemble) tree_args "/".
(** the same namespace, with a session that expires while /a/c is listed *)
Definition expired : exn := ZookeeperError "session expired".
Definition broken : server :=
  {| up := false; nodes := [];
     listing := [("/a", Ok ["b"; "c"; "e"]); ("/a/c", Err expired);
                 ("/a/e", Ok [])];
     refuse := []; ruok := "imok" |}.
Definition E' : Env := env broken [].
Definition w' : world E' := ready E' (connected broken) tree_args "/".
End Tree.

(** The health probe. *)
Module Status.
Definition status_args : Args :=
  {| target := "zk:2181"; action := "status"; znode := None; values := None;
     input := None; value := None |}.
Definition E : Env := env healthy [].
Definition w : world E := ready E (connected healthy) status_args "/".
Definition chatty : server :=
  {| up := false; nodes := []; listing := []; refuse := [];
     ruok := "not imok" |}.
Definition E' : Env := env chatty [].
Definition w' : world E' := ready E' (connected chatty) status_args "/".
Definition argv : list (string * string) := [("--action", "status")].
End Status.

(** [--action set --znode /k --input /m/v.json], the node /k existing. *)
Module SetFromFile.
Definition ensemble : server :=
  {| up := false; nodes := [("/", None); ("/k", Some "old")]; listing := [];
     refuse := []; ruok := "imok" |}.
Definition files : list (string * fsnode) := [("/m/v.json", File ("{}" ++ nl))].
Definition E : Env := env ensemble files.
Definition set_args : Args :=
  {| target := "zk:2181"; action := "set"; znode := Some "/k"; values := None;
     input := Some "v.json"; value := None |}.
Definition w : world E := ready E (connected ensemble) set_args "/m".
End SetFromFile.

(** A mapping whose second source is a directory: [os.access] grants it,
    [open] does not. *)
Module DirectorySource.
Definition mapping : string := "/k1:a.json" ++ nl ++ "/k2:d" ++ nl.
Definition files : list (string * fsnode) :=
  [("/m/map.txt", File mapping); ("/m/a.json", File "{}"); ("/m/d", Directory)].
Definition E : Env := env healthy files.
Definition argv : list (string * string) :=
  [("--action", "deploy"); ("--input", "/m/map.txt")].
End DirectorySource.

(** A mapping whose second source, b.json, is not in the directory of the
    mapping file, /m, but is in that of the first source, /abs. *)
Module Drifted.
Definition mapping : string := "/k1:/abs/a.json" ++ nl ++ "/k2:b.json" ++ nl.
Definition files : list (string * fsnode) :=
  [("/m/map.txt", File mapping); ("/abs/a.json", File "1");
   ("/abs/b.json", File "2")].
Definition E : Env := env healthy files.
Definition argv : list (string * string) :=
  [("--action", "deploy"); ("--input", "/m/map.txt")].
End Drifted.

End Scenario.

(* ===================================================================== *)
(** ** More concrete runs, for the properties of the single actions *)
(* ===================================================================== *)

(** An ensemble whose listings and refusals are fixed once and for all:
    they are read off the tables of [s0], whatever the client has become. *)
Module Frozen.

Import Fixture.

Definition client (s0 : server) : KazooClient :=
  {| conn := server;
     kz_new := fun _ => s0;
     kz_start := fun s => (Ok tt, set_up_flag true s);
     kz_connected := up;
     kz_stop := fun s => (Ok tt, set_up_flag false s);
     kz_close := fun s => (Ok tt, s);
     kz_exists := fun p s =>
       (Ok (match lookup p (nodes s) with Some _ => true | None => false end), s);
     kz_get_children := fun p s =>
       (match lookup p (listing s0) with
        | Some r => r
        | None => Err (NoNodeError p)
        end, s);
     kz_get := fun p s =>
       (match lookup p (nodes s) with
        | Some d => Ok d
        | None => Err (NoNodeError p)
        end, s);
     kz_set := fun p v s =>
       match v with
       | Some (Str _) =>
           (Err (TypeError "Invalid type for 'value' (must be a byte string)"), s)
       | _ =>
           match lookup p (refuse s0) with
           | Some e => (Err e, s)
           | None =>
               match lookup p (nodes s) with
               | Some _ => (Ok tt, set_nodes (update p (data_of v) (nodes s)) s)
               | None => (Err (NoNodeError p), s)
               end
           end
       end;
     kz_ensure_path := fun p s =>
       (Ok tt, match lookup p (nodes s) with
               | Some _ => s
               | None => set_nodes (nodes s ++ [(p, None)]) s
               end);
     kz_delete := fun p s =>
       (Ok tt, set_nodes (filter (fun kv => negb (String.eqb (fst kv) p)) (nodes s)) s);
     kz_command := fun _ s => (Ok (ruok s), s) |}.

Definition env (s0 : server) (files : list (string * fsnode)) : Env :=
  {| kazoo := client s0;
     fs := table files;
     canonical := json_fragment;
     json_error := json_fragment_error;
     decode_error := decode_error_at_start;
     recursion_limit := 100 |}.

End Frozen.

Module Scenario2.

Import Fixture Scenario.

(** [--action list --znode /a] and [--action get --znode /a]: the node /a
    holds "v1", a no-break space (U+00A0, two bytes), a unit separator, a
    space and a newline, and has the children b and c. *)
Module Reading.
Definition data : string :=
  "v1" ++ String "194" (String "160" (String "031" (" " ++ nl))).
Definition ensemble : server :=
  {| up := false; nodes := [("/", None); ("/a", Some data)];
     listing := [("/a", Ok ["b"; "c"])]; refuse := []; ruok := "imok" |}.
Definition E : Env := env ensemble [].
Definition read_args : Args :=
  {| target := "zk:2181"; action := "list"; znode := Some "/a"; values := None;
     input := None; value := None |}.
Definition w : world E := ready E (connected ensemble) read_args "/".
Definition w' : world E := Eval vm_compute in snd (check_znode_exists w).
(** the same, /a holding the one byte 255 *)
Definition garbled : server :=
  {| up := false; nodes := [("/", None); ("/a", Some (String "255" ""))];
     listing := []; refuse := []; ruok := "imok" |}.
Definition E' : Env := env garbled [].
Definition g : world E' := ready E' (connected garbled) read_args "/".
End Reading.

(** The namespace of [Scenario.Tree], frozen; the second process has
    printed a line already. *)
Module FrozenTree.
Definition E : Env := Frozen.env Tree.ensemble [].
Definition w1 : world E := ready E (connected Tree.ensemble) Tree.tree_args "/".
Definition w2 : world E := with_stdout ["earlier"] w1.
End FrozenTree.

(** A mapping with a blank second line. *)
Module BlankLine.
Definition pre : list string := ["/k1:a.json" ++ nl].
Definition line : string := nl.
Definition post : list string := ["/k2:b.json" ++ nl].
Definition mapping : string := String.concat "" (pre ++ line :: post).
Definition files : list (string * fsnode) :=
  [("/m/map.txt", File mapping); ("/m/a.json", File "{}");
   ("/m/b.json", File "{}")].
Definition E : Env := env healthy files.
Definition w : world E := ready E (connected healthy) deploy_args "/m".
End BlankLine.

(** The mapping and the ensemble of [Scenario.Refused], frozen. *)
Module FrozenRefused.
Definition E : Env := Frozen.env Refused.ensemble Refused.files.
Definition w : world E := ready E (connected Refused.ensemble) deploy_args "/m".
Definition w0 : world E :=
  Eval vm_compute in snd (deploy_scan (readlines Refused.mapping) (opened w)).
End FrozenRefused.

(** [--action set --znode /k --values {}], the node /k existing. *)
Module SetValues.
Definition argv : list (string * string) :=
  [("--action", "set"); ("--znode", "/k"); ("--values", "{}")].
Definition w : world SetFromFile.E := boot SetFromFile.E "/".
Definition refusal : exn :=
  TypeError "Invalid type for 'value' (must be a byte string)".
End SetValues.

End Scenario2.

(* ===================================================================== *)
(** ** Properties *)
(* ===================================================================== *)

Section Properties.

Context {E : Env}.

(** *** The monad *)

Lemma bind_Return {A B} (m : M E A) (k : A -> M E B) w a w' :
  m w = (Return a, w') -> bind m k w = k a w'.
Proof. intros H. unfold bind. rewrite H. reflexivity. Qed.

Lemma bind_Raise {A B} (m : M E A) (k : A -> M E B) w e w' :
  m w = (Raise e, w') -> bind m k w = (Raise e, w').
Proof. intros H. unfold bind. rewrite H. reflexivity. Qed.

Lemma bind_Exit {A B} (m : M E A) (k : A -> M E B) w c w' :
  m w = (Exit c, w') -> bind m k w = (Exit c, w').
Proof. intros H. unfold bind. rewrite H. reflexivity. Qed.

Lemma for_each_cons {A} (body : A -> M E unit) x t w :
  for_each body (x :: t) w = bind (body x) (fun _ => for_each body t) w.
Proof. reflexivity. Qed.

Lemma for_each_app {A} (body : A -> M E unit) pre post w :
  for_each body (pre ++ post) w =
  bind (for_each body pre) (fun _ => for_each body post) w.
Proof.
  revert w. induction pre as [|x pre IH]; intros w.
  - reflexivity.
  - rewrite <- app_comm_cons. unfold bind at 1. rewrite !for_each_cons.
    unfold bind at 1 2.
    destruct (body x w) as [[[]|e|c] w1]; try reflexivity.
    rewrite IH. reflexivity.
Qed.

(** *** Strings and paths *)

Lemma cut_last_sep_no_sep name :
  contains name "/" = false -> cut_last_sep name = None.
Proof.
  induction name as [|c t IH]; intros H; [reflexivity|].
  simpl in H. apply orb_false_iff in H. destruct H as [H1 H2].
  simpl. rewrite (IH H2).
  destruct (Ascii.eqb_spec c sep) as [->|]; [|reflexivity].
  unfold sep in H1. simpl in H1. destruct t; discriminate.
Qed.

Lemma cut_last_sep_app dir name :
  contains name "/" = false ->
  cut_last_sep (dir ++ "/" ++ name) = Some (dir ++ "/", name).
Proof.
  intros H. induction dir as [|c t IH]; simpl.
  - rewrite (cut_last_sep_no_sep _ H). reflexivity.
  - simpl in IH. rewrite IH. reflexivity.
Qed.

(** [basename] is the last segment of a path. *)
Lemma basename_last_segment dir name :
  contains name "/" = false -> basename (dir ++ "/" ++ name) = name.
Proof.
  intros H. unfold basename. rewrite (cut_last_sep_app _ _ H). reflexivity.
Qed.

Lemma length_append (a b : string) :
  String.length (a ++ b) = String.length a + String.length b.
Proof. induction a as [|c a IH]; simpl; [reflexivity | now rewrite IH]. Qed.

(** *** The tree view *)

Lemma show_tree_node_eq level c w :
  show_tree_node level c w =
  (Return tt,
   with_stdout (stdout w ++
     [match level with
      | 0 => ". " ++ basename c
      | 1 => "  └─── " ++ basename c
      | _ => mul "    " level ++ "└" ++ mul "─" level ++ " " ++ basename c
      end]) w).
Proof.
  unfold show_tree_node.
  destruct level as [|[|n]]; reflexivity.
Qed.

(** What was printed is never taken back by a tree walk. *)
Lemma for_each_stdout {A} (body : A -> M E unit) :
  (forall x w, exists out, stdout (snd (body x w)) = (stdout w ++ out)%list) ->
  forall l w, exists out, stdout (snd (for_each body l w)) = (stdout w ++ out)%list.
Proof.
  intros Hb l. induction l as [|x t IH]; intros w.
  - exists []. simpl. now rewrite app_nil_r.
  - rewrite for_each_cons. unfold bind.
    destruct (Hb x w) as [o1 H1].
    destruct (body x w) as [[[]|e|c] w1]; simpl in *.
    + destruct (IH w1) as [o2 H2]. exists (o1 ++ o2)%list.
      now rewrite H2, H1, app_assoc.
    + now exists o1.
    + now exists o1.
Qed.

Lemma call_stdout {A} c (op : conn kazoo -> reply A * conn kazoo) w :
  stdout (snd (call c op w)) = stdout w.
Proof.
  unfold call. destruct (zk w) as [s|]; [|reflexivity].
  destruct (op s) as [[a|e] s']; reflexivity.
Qed.

Lemma children_stdout (walk : string -> nat -> M E unit) path level :
  (forall p l w, exists out, stdout (snd (walk p l w)) = (stdout w ++ out)%list) ->
  forall w, exists out,
    stdout (snd (try_except
                   (bind (call (CGetChildren path) (kz_get_children kazoo path))
                         (fun children =>
                            for_each (fun c => walk (path ++ "/" ++ c) (level + 1))
                                     children))
                   is_NoNodeError (fun _ => ret tt) w))
    = (stdout w ++ out)%list.
Proof.
  intros Hw w. unfold try_except, bind.
  pose proof (call_stdout (CGetChildren path) (kz_get_children kazoo path) w) as Hc.
  destruct (call (CGetChildren path) (kz_get_children kazoo path) w)
    as [[children|e|c] w2]; simpl in Hc.
  - destruct (for_each_stdout (fun c => walk (path ++ "/" ++ c) (level + 1))
                (fun x w => Hw _ _ w) children w2) as [o2 H2].
    destruct (for_each _ children w2) as [[[]|e|c] w3]; simpl in H2.
    + exists o2. simpl. now rewrite H2, Hc.
    + destruct (is_NoNodeError e); exists o2; simpl; now rewrite H2, Hc.
    + exists o2. simpl. now rewrite H2, Hc.
  - destruct (is_NoNodeError e); exists []; simpl; now rewrite Hc, app_nil_r.
  - exists []; simpl; now rewrite Hc, app_nil_r.
Qed.

Lemma ZNode_S d path level :
  ZNode (S d) path level =
  bind (show_tree_node level path)
       (fun _ => try_except
                   (bind (call (CGetChildren path) (kz_get_children kazoo path))
                         (fun children =>
                            for_each (fun c => ZNode d (path ++ "/" ++ c) (level + 1))
                                     children))
                   is_NoNodeError (fun _ => ret tt)).
Proof. reflexivity. Qed.

Lemma ZNode_stdout depth : forall path level w,
  exists out, stdout (snd (ZNode depth path level w)) = (stdout w ++ out)%list.
Proof.
  induction depth as [|d IH]; intros path level w.
  - exists []. simpl. now rewrite app_nil_r.
  - rewrite ZNode_S. unfold bind at 1. rewrite show_tree_node_eq.
    set (w1 := with_stdout _ w).
    destruct (children_stdout (ZNode d) path level IH w1) as [o Ho].
    eexists. rewrite Ho. unfold w1. simpl. rewrite <- app_assoc. reflexivity.
Qed.

(** C4, amended (the lines of the tree view).  For a node whose path ends
    in the segment [name], [show_tree_node] prints ". name" at depth 0,
    "  └─── name" at depth 1, and at a depth d of 2 or more: four spaces
    d times, one "└", "─" d times, one space and [name].  It is the first
    line that [ZNode.__init__] prints for the node. *)
Theorem tree_line_format (depth level : nat) (dir name : string) (w : world E) :
  contains name "/" = false ->
  let line := match level with
              | 0 => ". " ++ name
              | 1 => "  └─── " ++ name
              | _ => mul "    " level ++ "└" ++ mul "─" level ++ " " ++ name
              end in
  show_tree_node level (dir ++ "/" ++ name) w
  = (Return tt, with_stdout (stdout w ++ [line]) w) /\
  exists rest,
    stdout (snd (ZNode (S depth) (dir ++ "/" ++ name) level w))
    = (stdout w ++ line :: rest)%list.
Proof.
  intros H line.
  assert (Hs : show_tree_node level (dir ++ "/" ++ name) w
               = (Return tt, with_stdout (stdout w ++ [line]) w)).
  { rewrite show_tree_node_eq, (basename_last_segment _ _ H). reflexivity. }
  split; [exact Hs|].
  rewrite ZNode_S. unfold bind at 1. rewrite Hs.
  set (w1 := with_stdout _ w).
  destruct (children_stdout (ZNode depth) (dir ++ "/" ++ name) level
              (ZNode_stdout depth) w1) as [o Ho].
  exists o. rewrite Ho. unfold w1. simpl. now rewrite <- app_assoc.
Qed.





(** *** The two loops of [cmd_deploy] *)

Lemma split1_shape (c : ascii) (s : string) :
  (exists a, split1 c s = [a]) \/ (exists a b, split1 c s = [a; b]).
Proof.
  induction s as [|x t IH]; simpl.
  - left. now exists "".
  - destruct (Ascii.eqb x c).
    + right. now exists "", t.
    + destruct IH as [[a Ha]|[a [b Hb]]].
      * left. rewrite Ha. now exists (String x a).
      * right. rewrite Hb. now exists (String x a), b.
Qed.

Lemma unpack2_entry l (w : world E) :
  unpack2 (split1 ":" (rstrip l)) w =
  match entry_of l with
  | Some kp => (Return kp, w)
  | None =>
      (Raise (ValueError "not enough values to unpack (expected 2, got 1)"), w)
  end.
Proof.
  unfold entry_of, unpack2.
  destruct (split1_shape ":" (rstrip l)) as [[a Ha]|[a [b Hb]]].
  - now rewrite Ha.
  - now rewrite Hb.
Qed.

Lemma deploy_check_comment l (w : world E) :
  startswith l "#" = true -> deploy_check l w = (Return tt, w).
Proof. intros H. unfold deploy_check. now rewrite H. Qed.

Lemma deploy_check_malformed l (w : world E) :
  startswith l "#" = false -> entry_of l = None ->
  deploy_check l w =
  (Raise (ValueError "not enough values to unpack (expected 2, got 1)"), w).
Proof.
  intros H He. unfold deploy_check. rewrite H. unfold bind.
  now rewrite unpack2_entry, He.
Qed.

Lemma deploy_check_unreadable l key path (w : world E) :
  startswith l "#" = false -> entry_of l = Some (key, path) ->
  resolve (cwd w) path = None ->
  deploy_check l w =
  (Exit 1,
   with_stdout (stdout w ++ ["Can't access or open file " ++ path])
     (with_fs_log (fs_log w ++ [FAccess path (abspath (cwd w) path)]) w)).
Proof.
  intros H He Hr. unfold deploy_check. rewrite H.
  unfold check_file, bind, access. rewrite unpack2_entry, He. simpl.
  now rewrite Hr.
Qed.

Lemma deploy_check_readable l key path n (w : world E) :
  startswith l "#" = false -> entry_of l = Some (key, path) ->
  resolve (cwd w) path = Some n ->
  deploy_check l w =
  (Return tt,
   with_fs_log (fs_log w ++ [FAccess path (abspath (cwd w) path);
                             FChdir (dirname (abspath (cwd w) path))])
     (with_cwd (single_root (dirname (abspath (cwd w) path))) w)).
Proof.
  intros H He Hr. unfold deploy_check. rewrite H.
  unfold check_file, bind, access. rewrite unpack2_entry, He. simpl.
  rewrite Hr. simpl.
  unfold with_fs_log, with_cwd. simpl. now rewrite <- app_assoc.
Qed.

(** The first loop never talks to the client, whatever it ends in. *)
Lemma deploy_check_quiet l (w : world E) :
  calls (snd (deploy_check l w)) = calls w /\
  zk (snd (deploy_check l w)) = zk w /\
  args (snd (deploy_check l w)) = args w.
Proof.
  destruct (startswith l "#") eqn:H.
  - now rewrite deploy_check_comment.
  - destruct (entry_of l) as [[k p]|] eqn:He.
    + destruct (resolve (cwd w) p) as [n|] eqn:Hr.
      * now rewrite (deploy_check_readable _ _ _ _ _ H He Hr).
      * now rewrite (deploy_check_unreadable _ _ _ _ H He Hr).
    + now rewrite (deploy_check_malformed _ _ H He).
Qed.

Lemma deploy_scan_quiet lines : forall (w : world E),
  calls (snd (deploy_scan lines w)) = calls w /\
  zk (snd (deploy_scan lines w)) = zk w /\
  args (snd (deploy_scan lines w)) = args w.
Proof.
  unfold deploy_scan. induction lines as [|l t IH]; intros w.
  - now simpl.
  - rewrite for_each_cons. unfold bind.
    destruct (deploy_check_quiet l w) as [Hc [Hz Ha]].
    destruct (deploy_check l w) as [[[]|e|c] w1]; simpl in *;
      try now repeat split.
    destruct (IH w1) as [Hc' [Hz' Ha']].
    now rewrite Hc', Hz', Ha'.
Qed.

(** [cmd_deploy], once the mapping file is open. *)
Lemma cmd_deploy_opened (w : world E) content :
  truthy (input (args w)) = true ->
  resolve (cwd w) (fmt (input (args w))) = Some (File content) ->
  cmd_deploy w =
  bind (deploy_scan (readlines content))
       (fun _ => deploy_commit (readlines content)) (opened w).
Proof.
  intros Ht Hr. unfold cmd_deploy, bind at 1, get_args.
  unfold bind at 1, check_option. rewrite Ht. simpl.
  unfold bind at 1, open_. now rewrite Hr.
Qed.

(** A source that cannot be read where the scan meets it ends the scan,
    if nothing ended it before. *)
Lemma deploy_scan_blocked l post key path :
  startswith l "#" = false -> entry_of l = Some (key, path) ->
  forall pre (w : world E),
    resolve (scan_cwd (cwd w) pre) path = None ->
    exists o w',
      deploy_scan (pre ++ l :: post) w = (o, w') /\
      (o = Exit 1 \/ exists m, o = Raise (ValueError m)) /\
      calls w' = calls w /\ zk w' = zk w.
Proof.
  intros H He pre. unfold deploy_scan.
  induction pre as [|l0 pre IH]; intros w Hr; simpl app.
  - simpl in Hr. rewrite for_each_cons. unfold bind.
    rewrite (deploy_check_unreadable _ _ _ _ H He Hr).
    eexists _, _. split; [reflexivity|]. now repeat split; [left|..].
  - rewrite for_each_cons. unfold bind. simpl in Hr.
    destruct (startswith l0 "#") eqn:H0.
    + rewrite (deploy_check_comment _ _ H0). now apply IH.
    + destruct (entry_of l0) as [[k0 p0]|] eqn:He0.
      * destruct (resolve (cwd w) p0) as [n|] eqn:Hr0.
        -- rewrite (deploy_check_readable _ _ _ _ _ H0 He0 Hr0).
           destruct (IH (with_fs_log
                           (fs_log w ++ [FAccess p0 (abspath (cwd w) p0);
                                         FChdir (dirname (abspath (cwd w) p0))])
                           (with_cwd (single_root (dirname (abspath (cwd w) p0))) w)) Hr)
             as [o [w' [Hs [Ho [Hc Hz]]]]].
           exists o, w'. now repeat split.
        -- rewrite (deploy_check_unreadable _ _ _ _ H0 He0 Hr0).
           eexists _, _. split; [reflexivity|]. now repeat split; [left|..].
      * rewrite (deploy_check_malformed _ _ H0 He0).
        eexists _, _. split; [reflexivity|]. repeat split. right. now eexists.
Qed.

(** X19 (the gate of the first loop).  Let the mapping file open, and
    let it hold, after the lines [pre], a non-comment entry [l] whose
    source [os.access] refuses from the directory the first loop is in
    when it gets to [l].  Then [cmd_deploy] ends without a single call to
    the client: it leaves with status 1 (or, when a line of [pre] is
    malformed, in the [ValueError] of the unpacking), and the log of
    client calls and the state of the client are the ones it started
    with.  No [ensure_path] and no [set] is issued, for the entries before
    [l] as for all others. *)
Theorem deploy_unreadable_source_no_mutation
        (w : world E) (content : string) (pre : list string) (l : string)
        (post : list string) (key path : string) :
  truthy (input (args w)) = true ->
  resolve (cwd w) (fmt (input (args w))) = Some (File content) ->
  readlines content = (pre ++ l :: post)%list ->
  startswith l "#" = false ->
  entry_of l = Some (key, path) ->
  resolve (scan_cwd (cwd w) pre) path = None ->
  exists o w',
    cmd_deploy w = (o, w') /\
    (o = Exit 1 \/ exists m, o = Raise (ValueError m)) /\
    calls w' = calls w /\ zk w' = zk w.
Proof.
  intros Ht Hr Hl H He Hu.
  rewrite (cmd_deploy_opened _ _ Ht Hr), Hl.
  destruct (deploy_scan_blocked l post key path H He pre (opened w) Hu)
    as [o [w' [Hs [Ho [Hc Hz]]]]].
  exists o, w'. split; [|now repeat split].
  unfold bind. rewrite Hs. destruct Ho as [->|[m ->]]; reflexivity.
Qed.

(** C3, amended (the scan stops at the first unreadable source).  Let the
    first loop have gone through the lines [pre] and reach a non-comment
    entry [l] whose source cannot be read.  Then [cmd_deploy] prints
    "Can't access or open file <source>" for [l] and leaves with status 1
    there and then: the log of file-system calls ends with the check of
    [l], so no line after [l] is visited.  The unreadable source is
    reported whatever its place in the file. *)
Theorem deploy_scan_stops_at_first_unreadable
        (w w1 : world E) (content : string) (pre : list string) (l : string)
        (post : list string) (key path : string) :
  truthy (input (args w)) = true ->
  resolve (cwd w) (fmt (input (args w))) = Some (File content) ->
  readlines content = (pre ++ l :: post)%list ->
  deploy_scan pre (opened w) = (Return tt, w1) ->
  startswith l "#" = false ->
  entry_of l = Some (key, path) ->
  resolve (cwd w1) path = None ->
  cmd_deploy w =
  (Exit 1,
   with_stdout (stdout w1 ++ ["Can't access or open file " ++ path])
     (with_fs_log (fs_log w1 ++ [FAccess path (abspath (cwd w1) path)]) w1)).
Proof.
  intros Ht Hr Hl Hp H He Hu.
  rewrite (cmd_deploy_opened _ _ Ht Hr), Hl.
  unfold bind, deploy_scan. rewrite for_each_app. unfold bind.
  unfold deploy_scan in Hp. rewrite Hp, for_each_cons. unfold bind.
  now rewrite (deploy_check_unreadable _ _ _ _ H He Hu).
Qed.

(** *** The second loop *)

Lemma deploy_apply_comment l (w : world E) :
  startswith l "#" = true -> deploy_apply l w = (Return tt, w).
Proof. intros H. unfold deploy_apply. now rewrite H. Qed.

Lemma deploy_apply_invalid l key path payload (w : world E) :
  startswith l "#" = false -> entry_of l = Some (key, path) ->
  resolve (cwd w) path = Some (File payload) ->
  canonical (rstrip (read payload)) = None ->
  deploy_apply l w =
  (Raise (ValueError (json_error (rstrip (read payload)))),
   with_fs_log (fs_log w ++ [FOpen path (abspath (cwd w) path)]) w).
Proof.
  intros H He Hr Hj. unfold deploy_apply. rewrite H.
  unfold bind, open_, read_json_from_file, check_json.
  rewrite unpack2_entry, He. simpl. rewrite Hr, Hj. reflexivity.
Qed.

Lemma deploy_apply_valid l key path payload v (w : world E) :
  startswith l "#" = false -> entry_of l = Some (key, path) ->
  resolve (cwd w) path = Some (File payload) ->
  canonical (rstrip (read payload)) = Some v ->
  deploy_apply l w = create_and_set (staged key v path w).
Proof.
  intros H He Hr Hj. unfold deploy_apply. rewrite H.
  unfold bind, open_, read_json_from_file, check_json.
  rewrite unpack2_entry, He. simpl. rewrite Hr, Hj. reflexivity.
Qed.

Lemma create_and_set_eq (w : world E) :
  create_and_set w =
  match create_and_set_try w with
  | (Raise e, w') =>
      if is_ZookeeperError e
      then (Return tt, with_stdout (stdout w' ++ [create_and_set_error e]) w')
      else (Raise e, w')
  | r => r
  end.
Proof. reflexivity. Qed.



(** *** What [create_and_set] sends *)

Lemma create_and_set_try_calls (w : world E) :
  args (snd (create_and_set_try w)) = args w /\
  exists new,
    calls (snd (create_and_set_try w)) = (calls w ++ new)%list /\
    forall p x r, In (CSet p x, r) new ->
                  znode (args w) = Some p /\ x = values (args w).
Proof.
  unfold create_and_set_try, bind, get_args, as_path, print, ret, raise, call.
  destruct (znode (args w)) as [z|]; simpl;
    [|split; [reflexivity|exists []; rewrite app_nil_r; now split]].
  destruct (zk w) as [s|]; simpl;
    [|split; [reflexivity|exists []; rewrite app_nil_r; now split]].
  destruct (kz_exists kazoo z s) as [[[]|e] s1]; simpl.
  - destruct (kz_set kazoo z (values (args w)) s1) as [[[]|e] s2]; simpl;
      (split; [reflexivity|]); eexists; rewrite <- app_assoc;
      (split; [reflexivity|]); intros p x r [Hi|[Hi|[]]]; inversion Hi; now split.
  - destruct (kz_ensure_path kazoo z s1) as [[[]|e] s2]; simpl.
    + destruct (kz_set kazoo z (values (args w)) s2) as [[[]|e] s3]; simpl;
        (split; [reflexivity|]); eexists; rewrite <- !app_assoc;
        (split; [reflexivity|]); intros p x r [Hi|[Hi|[Hi|[]]]];
        inversion Hi; now split.
    + split; [reflexivity|]. eexists; rewrite <- !app_assoc.
      split; [reflexivity|]. intros p x r [Hi|[Hi|[]]]; inversion Hi.
  - split; [reflexivity|]. eexists. split; [reflexivity|].
    intros p x r [Hi|[]]; inversion Hi.
Qed.

Lemma create_and_set_calls (w : world E) :
  args (snd (create_and_set w)) = args w /\
  exists new,
    calls (snd (create_and_set w)) = (calls w ++ new)%list /\
    forall p x r, In (CSet p x, r) new ->
                  znode (args w) = Some p /\ x = values (args w).
Proof.
  rewrite create_and_set_eq.
  destruct (create_and_set_try_calls w) as [Ha [new [Hc Hn]]].
  destruct (create_and_set_try w) as [[[]|e|c] w1]; simpl in *;
    try (split; [exact Ha|now exists new]).
  destruct (is_ZookeeperError e); simpl; (split; [exact Ha|now exists new]).
Qed.

(** When the node exists, [zk.set] is reached, with [args.values]. *)
Lemma create_and_set_sets (w : world E) z s s1 :
  zk w = Some s -> znode (args w) = Some z ->
  kz_exists kazoo z s = (Ok true, s1) ->
  exists r, In (CSet z (values (args w)), r) (calls (snd (create_and_set w))).
Proof.
  intros Hz Hn Hx. rewrite create_and_set_eq.
  unfold create_and_set_try, bind, get_args, as_path, print, ret, raise, call.
  rewrite Hn. simpl. rewrite Hz, Hx. simpl.
  destruct (kz_set kazoo z (values (args w)) s1) as [[[]|e] s2]; simpl.
  - exists None. apply in_or_app. right. now left.
  - exists (Some e). destruct (is_ZookeeperError e); simpl;
      apply in_or_app; right; now left.
Qed.



(** [create_and_set] stays in its directory and only adds to what was
    printed. *)
Lemma create_and_set_try_frame (w : world E) :
  cwd (snd (create_and_set_try w)) = cwd w /\
  exists out, stdout (snd (create_and_set_try w)) = (stdout w ++ out)%list.
Proof.
  unfold create_and_set_try, bind, get_args, as_path, print, ret, raise, call.
  destruct (znode (args w)) as [z|]; simpl;
    [|split; [reflexivity|exists []; now rewrite app_nil_r]].
  destruct (zk w) as [s|]; simpl;
    [|split; [reflexivity|exists []; now rewrite app_nil_r]].
  destruct (kz_exists kazoo z s) as [[[]|e] s1]; simpl.
  - destruct (kz_set kazoo z (values (args w)) s1) as [[[]|e] s2]; simpl;
      (split; [reflexivity|exists []; now rewrite app_nil_r]).
  - destruct (kz_ensure_path kazoo z s1) as [[[]|e] s2]; simpl.
    + destruct (kz_set kazoo z (values (args w)) s2) as [[[]|e] s3]; simpl;
        (split; [reflexivity|eexists; reflexivity]).
    + split; [reflexivity|eexists; reflexivity].
  - split; [reflexivity|exists []; now rewrite app_nil_r].
Qed.

Lemma create_and_set_frame (w : world E) :
  cwd (snd (create_and_set w)) = cwd w /\
  exists out, stdout (snd (create_and_set w)) = (stdout w ++ out)%list.
Proof.
  rewrite create_and_set_eq.
  destruct (create_and_set_try_frame w) as [Hd [out Ho]].
  destruct (create_and_set_try w) as [[[]|e|c] w1]; simpl in *;
    try (split; [exact Hd|now exists out]).
  destruct (is_ZookeeperError e); simpl; (split; [exact Hd|]).
  - exists (out ++ [create_and_set_error e])%list. now rewrite Ho, app_assoc.
  - now exists out.
Qed.

Lemma deploy_apply_frame l (w : world E) :
  cwd (snd (deploy_apply l w)) = cwd w /\
  exists out, stdout (snd (deploy_apply l w)) = (stdout w ++ out)%list.
Proof.
  destruct (startswith l "#") eqn:H.
  - rewrite (deploy_apply_comment _ _ H). split; [reflexivity|].
    exists []. now rewrite app_nil_r.
  - destruct (entry_of l) as [[k p]|] eqn:He.
    + destruct (resolve (cwd w) p) as [[payload|]|] eqn:Hr.
      * destruct (canonical (rstrip (read payload))) as [v|] eqn:Hj.
        -- rewrite (deploy_apply_valid _ _ _ _ _ _ H He Hr Hj).
           exact (create_and_set_frame (staged k v p w)).
        -- rewrite (deploy_apply_invalid _ _ _ _ _ H He Hr Hj).
           split; [reflexivity|]. exists []. now rewrite app_nil_r.
      * unfold deploy_apply. rewrite H.
        unfold bind, open_. rewrite unpack2_entry, He. simpl. rewrite Hr.
        split; [reflexivity|]. exists []. now rewrite app_nil_r.
      * unfold deploy_apply. rewrite H.
        unfold bind, open_. rewrite unpack2_entry, He. simpl. rewrite Hr.
        split; [reflexivity|]. exists []. now rewrite app_nil_r.
    + unfold deploy_apply. rewrite H.
      unfold bind. rewrite unpack2_entry, He.
      split; [reflexivity|]. exists []. now rewrite app_nil_r.
Qed.


(** C2, amended (a payload that is not JSON ends the batch).  Let the
    first loop pass, the second loop have applied the lines [pre], and the
    next non-comment entry [l] name a file that opens and whose text
    [json.loads] rejects.  Then [cmd_deploy] ends in the [ValueError] of
    [json.loads]:
    nothing is printed for [l], no call is made to the client for [l], and
    the lines after [l] are not processed -- the process stops as the
    entries [pre] left it, the payload file opened. *)
Theorem deploy_invalid_payload_aborts
        (w w0 w1 : world E) (content : string) (pre : list string)
        (l : string) (post : list string) (key path payload : string) :
  truthy (input (args w)) = true ->
  resolve (cwd w) (fmt (input (args w))) = Some (File content) ->
  readlines content = (pre ++ l :: post)%list ->
  deploy_scan (readlines content) (opened w) = (Return tt, w0) ->
  deploy_commit pre w0 = (Return tt, w1) ->
  startswith l "#" = false ->
  entry_of l = Some (key, path) ->
  resolve (cwd w1) path = Some (File payload) ->
  canonical (rstrip (read payload)) = None ->
  cmd_deploy w =
  (Raise (ValueError (json_error (rstrip (read payload)))),
   with_fs_log (fs_log w1 ++ [FOpen path (abspath (cwd w1) path)]) w1).
Proof.
  intros Ht Hr Hl Hs Hp H He Hf Hj.
  rewrite (cmd_deploy_opened _ _ Ht Hr). unfold bind. rewrite Hs, Hl.
  unfold deploy_commit in *. rewrite for_each_app. unfold bind.
  rewrite Hp, for_each_cons. unfold bind.
  now rewrite (deploy_apply_invalid _ _ _ _ _ H He Hf Hj).
Qed.


(** *** [cmd_set] *)

(** C10 (set from a file never writes the file).  Under [--input f] with
    no [--values], a node name and a file [f] holding valid JSON of
    canonical form [v]: [cmd_set] stores [v] in [args.value] and runs
    [create_and_set], which does not read that attribute; [args.values] is
    still [None] at the end; every [set] the run sends is on the node
    [z] with the value [None]; and when the node exists, that
    [zk.set(z, None)] is sent.  The content of the file never reaches the
    client. *)
Theorem set_from_input_never_writes_the_file
        (w : world E) (f z payload v : string) :
  input (args w) = Some f -> f <> "" ->
  values (args w) = None ->
  znode (args w) = Some z -> z <> "" ->
  resolve (cwd w) f = Some (File payload) ->
  canonical (rstrip (read payload)) = Some v ->
  let w1 :=
    with_args {| target := target (args w); action := action (args w);
                 znode := Some z; values := None; input := Some f;
                 value := Some v |}
      (with_fs_log (fs_log w ++ [FOpen f (abspath (cwd w) f)]) w) in
  cmd_set w = create_and_set w1 /\
  value (args (snd (cmd_set w))) = Some v /\
  values (args (snd (cmd_set w))) = None /\
  (exists new,
      calls (snd (cmd_set w)) = (calls w ++ new)%list /\
      forall p x r, In (CSet p x, r) new -> p = z /\ x = None) /\
  (forall s s1, zk w = Some s -> kz_exists kazoo z s = (Ok true, s1) ->
                exists r, In (CSet z None, r) (calls (snd (cmd_set w)))).
Proof.
  intros Hi Hf Hv Hn Hz Hr Hj w1.
  assert (Hq : cmd_set w = create_and_set w1).
  { unfold cmd_set, bind at 1, get_args. rewrite Hi, Hv, Hn.
    assert (Htf : truthy (Some f) = true).
    { simpl. destruct (String.eqb_spec f ""); [contradiction|reflexivity]. }
    assert (Htz : truthy (Some z) = true).
    { simpl. destruct (String.eqb_spec z ""); [contradiction|reflexivity]. }
    rewrite Htf. simpl negb. unfold check_option. rewrite Htz. simpl.
    unfold bind, ret, open_, read_json_from_file, check_json, get_args, set_args.
    simpl. rewrite Hr, Hj. simpl. unfold w1. rewrite Hi, Hn, Hv. reflexivity. }
  rewrite Hq.
  destruct (create_and_set_calls w1) as [Ha [new [Hc Hs]]].
  split; [reflexivity|]. split; [now rewrite Ha|]. split; [now rewrite Ha|].
  split.
  - exists new. split; [exact Hc|]. intros p x r Hin.
    destruct (Hs p x r Hin) as [Hp Hx]. simpl in Hp, Hx. now inversion Hp.
  - intros s s1 Hzk Hx.
    exact (create_and_set_sets w1 z s s1 Hzk eq_refl Hx).
Qed.

(** *** [cmd_status] *)

Lemma cmd_status_eq (w : world E) s r s' :
  zk w = Some s ->
  kz_command kazoo "ruok" s = (Ok r, s') ->
  let w1 := with_calls (calls w ++ [(CCommand "ruok", None)])
              (with_zk (Some s') w) in
  cmd_status w =
    (if contains r "imok"
     then (Exit 0, with_stdout (stdout w1 ++ ["OK"]) w1)
     else (Exit 1, with_stdout (stdout w1 ++ ["WARN - Server replied : " ++ r]) w1)).
Proof.
  intros Hz Hk w1. unfold cmd_status, bind, call. rewrite Hz, Hk.
  destruct (contains r "imok"); reflexivity.
Qed.

(** C8, amended (the probe succeeds on any answer holding the token).
    When [zk.command('ruok')] answers [r], [cmd_status] prints "OK" and
    leaves with status 0 if "imok" occurs in [r], and prints
    "WARN - Server replied : r" and leaves with status 1 otherwise; so it
    leaves with status 0 exactly when [r] contains "imok". *)
Theorem status_by_substring (w : world E) (s : conn kazoo) (r : string)
        (s' : conn kazoo) :
  zk w = Some s ->
  kz_command kazoo "ruok" s = (Ok r, s') ->
  let w1 := with_calls (calls w ++ [(CCommand "ruok", None)])
              (with_zk (Some s') w) in
  cmd_status w =
    (if contains r "imok"
     then (Exit 0, with_stdout (stdout w1 ++ ["OK"]) w1)
     else (Exit 1, with_stdout (stdout w1 ++ ["WARN - Server replied : " ++ r]) w1)) /\
  (fst (cmd_status w) = Exit 0 <-> contains r "imok" = true).
Proof.
  intros Hz Hk w1. pose proof (cmd_status_eq w s r s' Hz Hk) as Hq.
  split; [exact Hq|]. rewrite Hq.
  destruct (contains r "imok"); simpl; split; congruence.
Qed.

(** *** [tear_down] *)

(** [tear_down] is safe with no client, and with a client that is not
    connected: it only leaves. *)
Lemma tear_down_nothing_to_release (code : Z) (w : world E) :
  match zk w with Some s => kz_connected kazoo s = false | None => True end ->
  tear_down code w = (Exit code, w).
Proof.
  unfold tear_down. destruct (zk w) as [s|]; [intros ->|]; reflexivity.
Qed.

(** [cmd_status] leaves without [tear_down]: the client is as the probe
    left it, and the log ends with the probe. *)
Lemma cmd_status_skips_tear_down (w : world E) s r s' :
  zk w = Some s ->
  kz_command kazoo "ruok" s = (Ok r, s') ->
  zk (snd (cmd_status w)) = Some s' /\
  calls (snd (cmd_status w)) = (calls w ++ [(CCommand "ruok", None)])%list /\
  exists code, fst (cmd_status w) = Exit code.
Proof.
  intros Hz Hk. rewrite (cmd_status_eq w s r s' Hz Hk). destruct (contains r "imok"); simpl; repeat split; now eexists.
Qed.

(** *** Which calls a computation may make *)

Lemma sends_weaken {A} (P Q : zk_call -> bool) (m : M E A) :
  (forall c, P c = true -> Q c = true) -> sends P m -> sends Q m.
Proof.
  intros HPQ Hm w. destruct (Hm w) as [new [Hc Hf]]. exists new.
  split; [exact Hc|]. rewrite forallb_forall in *. intros c Hin. auto.
Qed.

Lemma sends_quiet {A} (P : zk_call -> bool) (m : M E A) :
  (forall w, calls (snd (m w)) = calls w) -> sends P m.
Proof. intros H w. exists []. now rewrite app_nil_r, H. Qed.

Lemma sends_bind {A B} (P : zk_call -> bool) (m : M E A) (k : A -> M E B) :
  sends P m -> (forall a, sends P (k a)) -> sends P (bind m k).
Proof.
  intros Hm Hk w. unfold bind. destruct (Hm w) as [n1 [H1 F1]].
  destruct (m w) as [[a|e|c] w1]; simpl in *; try now exists n1.
  destruct (Hk a w1) as [n2 [H2 F2]]. exists (n1 ++ n2)%list.
  split; [now rewrite H2, H1, app_assoc | now rewrite forallb_app, F1, F2].
Qed.

Lemma sends_try_except {A} (P : zk_call -> bool) (m : M E A) catches handler :
  sends P m -> (forall e, sends P (handler e)) -> sends P (try_except m catches handler).
Proof.
  intros Hm Hh w. unfold try_except. destruct (Hm w) as [n1 [H1 F1]].
  destruct (m w) as [[a|e|c] w1]; simpl in *; try now exists n1.
  destruct (catches e); [|now exists n1].
  destruct (Hh e w1) as [n2 [H2 F2]]. exists (n1 ++ n2)%list.
  split; [now rewrite H2, H1, app_assoc | now rewrite forallb_app, F1, F2].
Qed.

Lemma sends_for_each {A} (P : zk_call -> bool) (body : A -> M E unit) l :
  (forall x, sends P (body x)) -> sends P (for_each body l).
Proof.
  intros Hb. induction l as [|x t IH].
  - now apply sends_quiet.
  - change (for_each body (x :: t)) with (bind (body x) (fun _ => for_each body t)).
    apply sends_bind; auto.
Qed.

Lemma sends_call {A} (P : zk_call -> bool) c (op : conn kazoo -> reply A * conn kazoo) :
  P c = true -> sends P (call c op).
Proof.
  intros Hp w. unfold call. destruct (zk w) as [s|].
  - destruct (op s) as [[a|e] s']; simpl; eexists; (split; [reflexivity|]);
      simpl; now rewrite Hp.
  - exists []. now rewrite app_nil_r.
Qed.

Lemma sends_ret {A} P (a : A) : sends P (ret (E := E) a).
Proof. now apply sends_quiet. Qed.

Lemma sends_raise {A} P e : sends P (raise (E := E) (A := A) e).
Proof. now apply sends_quiet. Qed.

Lemma sends_exit {A} P c : sends P (exit (E := E) (A := A) c).
Proof. now apply sends_quiet. Qed.

Lemma sends_print P s : sends P (print (E := E) s).
Proof. now apply sends_quiet. Qed.

Lemma sends_get_args P : sends P (get_args (E := E)).
Proof. now apply sends_quiet. Qed.

Lemma sends_set_args P a : sends P (set_args (E := E) a).
Proof. now apply sends_quiet. Qed.

Lemma sends_as_path P o : sends P (as_path (E := E) o).
Proof. destruct o; now apply sends_quiet. Qed.

Lemma sends_open P f : sends P (open_ (E := E) f).
Proof.
  apply sends_quiet. intros w. unfold open_.
  destruct (resolve (cwd w) f) as [[|]|]; reflexivity.
Qed.

Lemma sends_check_json P j : sends P (check_json (E := E) j).
Proof. unfold check_json. destruct (canonical j); now apply sends_quiet. Qed.

Lemma sends_check_file P f : sends P (check_file (E := E) f).
Proof.
  apply sends_quiet. intros w. unfold check_file, bind, access.
  destruct (resolve (cwd w) f); reflexivity.
Qed.

Lemma sends_tear_down P code :
  (forall c, is_release c = true -> P c = true) -> sends P (tear_down code).
Proof.
  intros HP w. unfold tear_down. destruct (zk w) as [s|] eqn:Hz.
  - destruct (kz_connected kazoo s).
    + refine (sends_bind P _ _ _ _ w); [apply sends_call; now apply HP|].
      intros _. apply sends_bind; [apply sends_call; now apply HP|].
      intros _. apply sends_exit.
    + exists []. now rewrite app_nil_r.
  - exists []. now rewrite app_nil_r.
Qed.

Lemma sends_check_option P opt message :
  (forall c, is_release c = true -> P c = true) ->
  sends P (check_option opt message).
Proof.
  intros HP. unfold check_option. destruct (negb (truthy opt)).
  - apply sends_bind; [apply sends_print|]. intros _. now apply sends_tear_down.
  - apply sends_ret.
Qed.

Lemma sends_check_znode_exists P :
  (forall c, is_exists c || is_release c = true -> P c = true) ->
  sends P check_znode_exists.
Proof.
  intros HP.
  assert (HR : forall c, is_release c = true -> P c = true).
  { intros c Hc. apply HP. now rewrite Hc, orb_true_r. }
  unfold check_znode_exists.
  apply sends_bind; [apply sends_get_args|]. intros a.
  apply sends_bind; [now apply sends_check_option|]. intros _.
  apply sends_bind; [apply sends_as_path|]. intros z.
  apply sends_bind; [apply sends_call; now apply HP|]. intros e.
  destruct (negb e).
  - apply sends_bind; [apply sends_print|]. intros _. now apply sends_tear_down.
  - apply sends_ret.
Qed.

Lemma sends_create_and_set P :
  (forall c, is_exists c || is_write c = true -> P c = true) ->
  sends P create_and_set.
Proof.
  intros HP. unfold create_and_set, create_and_set_try.
  apply sends_try_except; [|intros e; apply sends_print].
  apply sends_bind; [apply sends_get_args|]. intros a.
  apply sends_bind; [apply sends_as_path|]. intros z.
  apply sends_bind; [apply sends_call; now apply HP|]. intros e.
  apply sends_bind; [|intros _; apply sends_call; now apply HP].
  destruct (negb e); [|apply sends_ret].
  apply sends_bind; [apply sends_print|]. intros _. apply sends_call. now apply HP.
Qed.

Lemma sends_ZNode depth : forall path level,
  sends is_get_children (ZNode depth path level).
Proof.
  induction depth as [|d IH]; intros path level.
  - apply sends_raise.
  - rewrite ZNode_S. apply sends_bind.
    + apply sends_quiet. intros w. now rewrite show_tree_node_eq.
    + intros _. apply sends_try_except; [|intros e; apply sends_ret].
      apply sends_bind; [now apply sends_call|]. intros children.
      apply sends_for_each. intros c. apply IH.
Qed.

(** X6 (the calls each action may make).
    Whatever the process and the ensemble, an action only adds to the log
    of client calls, and only calls of its own kinds: [get] and [stats]
    send [exists] and [get]; [list] sends [exists] and [get_children];
    [tree] sends [get_children] only; [status] sends the probe only; [del]
    sends [exists] and [delete]; [set] and [deploy] send [exists],
    [ensure_path] and [set]; [stop] and [close] come with the actions that
    leave through [tear_down].  So the reading actions never write or
    delete, and [set] and [deploy] never delete. *)
Theorem action_footprint (name : string) :
  sends (footprint name) (command_of name).
Proof.
  unfold command_of, footprint.
  destruct (String.eqb name "get").
  { unfold cmd_get.
    apply sends_bind; [apply sends_check_znode_exists; intros c Hc;
                       rewrite orb_true_iff in Hc; destruct Hc as [->| ->];
                       now rewrite ?orb_true_r|].
    intros _. apply sends_bind; [apply sends_get_args|]. intros a.
    apply sends_bind; [apply sends_as_path|]. intros z.
    apply sends_bind; [now apply sends_call|]. intros [d|];
      [destruct (decodable d); [apply sends_print|apply sends_raise]
      |apply sends_raise]. }
  destruct (String.eqb name "stats").
  { unfold cmd_stats.
    apply sends_bind; [apply sends_check_znode_exists; intros c Hc;
                       rewrite orb_true_iff in Hc; destruct Hc as [->| ->];
                       now rewrite ?orb_true_r|].
    intros _. apply sends_bind; [apply sends_get_args|]. intros a.
    apply sends_bind; [apply sends_as_path|]. intros z.
    apply sends_bind; [now apply sends_call|]. intros _. apply sends_raise. }
  destruct (String.eqb name "set").
  { unfold cmd_set.
    apply sends_bind; [apply sends_get_args|]. intros a.
    apply sends_bind.
    { destruct (_ && _); [|apply sends_ret].
      apply sends_bind; [apply sends_print|]. intros _.
      apply sends_tear_down. intros c ->. now rewrite orb_true_r. }
    intros _. apply sends_bind.
    { apply sends_check_option. intros c ->. now rewrite orb_true_r. }
    intros _. apply sends_bind.
    { destruct (truthy (input a)); [|apply sends_ret].
      apply sends_bind; [apply sends_open|]. intros f.
      apply sends_bind; [apply sends_check_json|]. intros v.
      apply sends_bind; [apply sends_get_args|]. intros a'. apply sends_set_args. }
    intros _. apply sends_create_and_set. intros c ->. reflexivity. }
  destruct (String.eqb name "deploy").
  { unfold cmd_deploy.
    apply sends_bind; [apply sends_get_args|]. intros a.
    apply sends_bind.
    { apply sends_check_option. intros c ->. now rewrite orb_true_r. }
    intros _. apply sends_bind; [apply sends_open|]. intros f.
    apply sends_bind.
    { apply sends_for_each. intros l. unfold deploy_check.
      destruct (startswith l "#"); [apply sends_ret|].
      apply sends_bind; [unfold unpack2; destruct (split1 _ _) as [|? [|? [|]]];
                         first [apply sends_ret | apply sends_raise]|].
      intros kp. apply sends_bind; [apply sends_check_file|]. intros _.
      apply sends_ret. }
    intros _. apply sends_for_each. intros l. unfold deploy_apply.
    destruct (startswith l "#"); [apply sends_ret|].
    apply sends_bind; [unfold unpack2; destruct (split1 _ _) as [|? [|? [|]]];
                       first [apply sends_ret | apply sends_raise]|].
    intros kp. apply sends_bind; [apply sends_open|]. intros p.
    apply sends_bind; [apply sends_check_json|]. intros v.
    apply sends_bind; [apply sends_get_args|]. intros a1.
    apply sends_bind; [apply sends_set_args|]. intros _.
    apply sends_bind; [apply sends_get_args|]. intros a2.
    apply sends_bind; [apply sends_set_args|]. intros _.
    apply sends_create_and_set. intros c ->. reflexivity. }
  destruct (String.eqb name "del").
  { unfold cmd_del.
    apply sends_bind; [apply sends_check_znode_exists; intros c Hc;
                       rewrite orb_true_iff in Hc; destruct Hc as [->| ->];
                       now rewrite ?orb_true_r|].
    intros _. apply sends_bind; [apply sends_get_args|]. intros a.
    apply sends_bind.
    { destruct (match znode a with Some z => _ | None => _ end); [|apply sends_ret].
      apply sends_bind; [apply sends_print|]. intros _.
      apply sends_tear_down. intros c ->. now rewrite orb_true_r. }
    intros _. apply sends_bind; [apply sends_print|]. intros _.
    apply sends_bind; [apply sends_as_path|]. intros z.
    apply sends_call. reflexivity. }
  destruct (String.eqb name "list").
  { unfold cmd_list.
    apply sends_bind; [apply sends_check_znode_exists; intros c Hc;
                       rewrite orb_true_iff in Hc; destruct Hc as [->| ->];
                       now rewrite ?orb_true_r|].
    intros _. apply sends_bind; [apply sends_get_args|]. intros a.
    apply sends_bind; [apply sends_as_path|]. intros z.
    apply sends_bind; [now apply sends_call|]. intros [|x t];
      [apply sends_print|]. apply sends_for_each. intros y. apply sends_print. }
  destruct (String.eqb name "tree").
  { unfold cmd_tree.
    apply sends_bind; [apply sends_get_args|]. intros a.
    apply sends_bind; [destruct (negb _); [apply sends_set_args|apply sends_ret]|].
    intros _. apply sends_bind; [apply sends_get_args|]. intros a'.
    apply sends_ZNode. }
  destruct (String.eqb name "status").
  { unfold cmd_status.
    apply sends_bind; [now apply sends_call|]. intros r.
    destruct (contains r "imok"); (apply sends_bind; [apply sends_print|]);
      intros _; apply sends_exit. }
  apply sends_ret.
Qed.

(** *** [tear_down] and the guards *)

Lemma tear_down_not_Return (code : Z) (w w' : world E) :
  tear_down code w <> (Return tt, w').
Proof.
  unfold tear_down. destruct (zk w) as [s|] eqn:Hz; [|discriminate].
  destruct (kz_connected kazoo s); [|discriminate].
  unfold bind, call, exit. rewrite Hz.
  destruct (kz_stop kazoo s) as [[[]|e] s1]; simpl; [|discriminate].
  destruct (kz_close kazoo s1) as [[[]|e] s2]; discriminate.
Qed.

Lemma bind_tear_down (code : Z) (k : unit -> M E unit) (w : world E) :
  bind (tear_down code) k w = tear_down code w.
Proof.
  unfold bind. destruct (tear_down code w) as [[[]|e|c] w1] eqn:Ht;
    try reflexivity.
  now apply tear_down_not_Return in Ht.
Qed.

Lemma bind_assoc {A B C} (m : M E A) (k1 : A -> M E B) (k2 : B -> M E C) w :
  bind (bind m k1) k2 w = bind m (fun a => bind (k1 a) k2) w.
Proof. unfold bind. destruct (m w) as [[a|e|c] w1]; reflexivity. Qed.

Lemma bind_print {B} (s : string) (k : unit -> M E B) w :
  bind (print s) k w = k tt (with_stdout (stdout w ++ [s]) w).
Proof. reflexivity. Qed.

(** X1 ([tear_down] only ever leaves).
    [tear_down] never returns.  It leaves with the status it was given,
    after [stop] and [close] when the client is connected and with no call
    otherwise; if [stop] raises, [close] is not called, and the exception
    of either is what the process ends in. *)
Theorem tear_down_never_returns (code : Z) (w : world E) :
  let connected :=
    match zk w with Some s => kz_connected kazoo s | None => false end in
  exists new,
    calls (snd (tear_down code w)) = (calls w ++ new)%list /\
    stdout (snd (tear_down code w)) = stdout w /\
    match fst (tear_down code w) with
    | Return _ => False
    | Exit c =>
        c = code /\
        new = if connected then [(CStop, None); (CClose, None)] else []
    | Raise e =>
        connected = true /\
        (new = [(CStop, Some e)] \/ new = [(CStop, None); (CClose, Some e)])
    end.
Proof.
  unfold tear_down. destruct (zk w) as [s|] eqn:Hz; simpl.
  - destruct (kz_connected kazoo s) eqn:Hk.
    + unfold bind, call, exit. rewrite Hz.
      destruct (kz_stop kazoo s) as [[[]|e] s1]; simpl.
      * destruct (kz_close kazoo s1) as [[[]|e] s2]; simpl;
          eexists; rewrite <- app_assoc; (split; [reflexivity|]);
          (split; [reflexivity|]); simpl; auto.
      * eexists; (split; [reflexivity|]); (split; [reflexivity|]); auto.
    + exists []. rewrite app_nil_r. simpl. auto.
  - exists []. rewrite app_nil_r. simpl. auto.
Qed.

Lemma check_znode_exists_eq (w : world E) :
  check_znode_exists w =
  bind (check_option (znode (args w))
          "Option --znode (or -z) is mandatory with the selected action")
       (fun _ =>
          bind (as_path (znode (args w)))
               (fun z =>
                  bind (call (CExists z) (kz_exists kazoo z))
                       (fun e =>
                          if negb e then
                            bind (print ("ZNode " ++ fmt (znode (args w))
                                                  ++ " does not exist."))
                                 (fun _ => tear_down 1)
                          else ret tt))) w.
Proof. reflexivity. Qed.

Lemma check_znode_exists_cases (w : world E) :
  (truthy (znode (args w)) = false /\
   check_znode_exists w =
   tear_down 1
     (with_stdout
        (stdout w ++ ["Option --znode (or -z) is mandatory with the selected action"])
        w)) \/
  (exists z, znode (args w) = Some z /\ z <> "" /\
     ((zk w = None /\
       check_znode_exists w = (Raise (NameError "name 'zk' is not defined"), w)) \/
      (exists s r s', zk w = Some s /\ kz_exists kazoo z s = (r, s') /\
         let w1 := with_calls
                     (calls w ++ [(CExists z,
                                   match r with Ok _ => None | Err e => Some e end)])
                     (with_zk (Some s') w) in
         check_znode_exists w =
         match r with
         | Ok true => (Return tt, w1)
         | Ok false =>
             tear_down 1
               (with_stdout (stdout w1 ++ ["ZNode " ++ z ++ " does not exist."]) w1)
         | Err e => (Raise e, w1)
         end))).
Proof.
  rewrite !check_znode_exists_eq.
  destruct (znode (args w)) as [z|] eqn:Hn.
  - destruct (String.eqb_spec z "") as [->|Hz].
    + left. split; [reflexivity|]. unfold check_option. simpl.
      now rewrite bind_assoc, bind_print, bind_tear_down.
    + right. exists z. split; [reflexivity|]. split; [exact Hz|].
      assert (Ht : truthy (Some z) = true).
      { simpl. destruct (String.eqb_spec z ""); [contradiction|reflexivity]. }
      unfold check_option. rewrite Ht. simpl. unfold bind, ret, call. simpl.
      destruct (zk w) as [s|]; [right|left; now split].
      destruct (kz_exists kazoo z s) as [r s'] eqn:Hx.
      exists s, r, s'. split; [reflexivity|]. split; [exact Hx|].
      destruct r as [[]|e]; simpl; reflexivity.
  - left. split; [reflexivity|]. unfold check_option. simpl.
    now rewrite bind_assoc, bind_print, bind_tear_down.
Qed.

(** X2 (the guard of the node actions).
    [check_znode_exists] returns only when [--znode] names a node and the
    ensemble has answered that the node exists; it has then made that one
    call and nothing else. *)
Theorem check_znode_exists_returns_on_existing_node (w w' : world E) :
  check_znode_exists w = (Return tt, w') ->
  exists z s s',
    znode (args w) = Some z /\ z <> "" /\
    zk w = Some s /\ kz_exists kazoo z s = (Ok true, s') /\
    w' = with_calls (calls w ++ [(CExists z, None)]) (with_zk (Some s') w).
Proof.
  intros H.
  destruct (check_znode_exists_cases w)
    as [[_ Hq]|[z [Hn [Hz [[_ Hq]|[s [r [s' [Hk [Hx Hq]]]]]]]]]];
    rewrite Hq in H.
  - now apply tear_down_not_Return in H.
  - discriminate.
  - destruct r as [[]|e]; simpl in H.
    + inversion H. now exists z, s, s'.
    + now apply tear_down_not_Return in H.
    + discriminate.
Qed.

(** *** [cmd_del], [cmd_list], [cmd_get] *)

Lemma bind_stuck (m : M E unit) (k : unit -> M E unit) (w : world E) :
  (forall w', m w <> (Return tt, w')) -> bind m k w = m w.
Proof.
  intros H. unfold bind. destruct (m w) as [[[]|e|c] w1]; try reflexivity.
  now elim (H w1).
Qed.

Lemma bind_ext_on (m : M E unit) (k k' : unit -> M E unit) (w : world E) :
  (forall w1, m w = (Return tt, w1) -> k tt w1 = k' tt w1) ->
  bind m k w = bind m k' w.
Proof.
  intros H. unfold bind. destruct (m w) as [[[]|e|c] w1]; try reflexivity.
  now apply H.
Qed.

Lemma release_is_no_delete (new : list (zk_call * option exn)) p r :
  forallb (fun c => is_release (fst c)) new = true -> ~ In (CDelete p, r) new.
Proof.
  intros Hf Hin. rewrite forallb_forall in Hf. specialize (Hf _ Hin). discriminate.
Qed.

Lemma cmd_del_eq (w : world E) :
  cmd_del w =
  bind check_znode_exists
       (fun _ =>
          bind (if match znode (args w) with
                   | Some z => String.eqb z "/"
                   | None => false
                   end
                then bind (print "ROOT cannot be deleted, exiting.")
                          (fun _ => tear_down 1)
                else ret tt)
               (fun _ =>
                  bind (print ("Deleting znode " ++ fmt (znode (args w))))
                       (fun _ =>
                          bind (as_path (znode (args w)))
                               (fun z => call (CDelete z) (kz_delete kazoo z))))) w.
Proof.
  unfold cmd_del. apply bind_ext_on. intros w1 H.
  destruct (check_znode_exists_cases w)
    as [[_ Hq]|[z [Hn [Hz [[_ Hq]|[s [r [s' [Hk [Hx Hq]]]]]]]]]];
    rewrite Hq in H.
  - now apply tear_down_not_Return in H.
  - discriminate.
  - destruct r as [[]|e]; simpl in H.
    + inversion H. reflexivity.
    + now apply tear_down_not_Return in H.
    + discriminate.
Qed.

(** X3 (what [cmd_del] deletes).
    [cmd_del] sends [delete] at most once, and only for the node named by
    [--znode], when that node is not the root and the ensemble has just
    answered that it exists. *)
Theorem cmd_del_spares_root_and_unknown_nodes (w : world E) :
  exists new,
    calls (snd (cmd_del w)) = (calls w ++ new)%list /\
    forall p r, In (CDelete p, r) new ->
      p <> "/" /\ znode (args w) = Some p /\
      (exists s s', zk w = Some s /\ kz_exists kazoo p s = (Ok true, s')) /\
      new = [(CExists p, None); (CDelete p, r)].
Proof.
  rewrite cmd_del_eq.
  destruct (check_znode_exists_cases w)
    as [[_ Hq]|[z [Hn [Hz [[_ Hq]|[s [r [s' [Hk [Hx Hq]]]]]]]]]].
  - rewrite bind_stuck by (intros w'; rewrite Hq; apply tear_down_not_Return).
    rewrite Hq.
    match goal with |- context [tear_down 1 ?x] =>
      destruct (sends_tear_down is_release 1 (fun c H => H) x)
        as [new [Hc Hf]] end.
    exists new. split; [exact Hc|]. intros p r0 Hin.
    now apply (release_is_no_delete _ _ _ Hf) in Hin.
  - rewrite bind_stuck by (intros w'; rewrite Hq; discriminate). rewrite Hq.
    exists []. rewrite app_nil_r. split; [reflexivity|]. intros p r0 [].
  - destruct r as [[]|e]; simpl in Hq.
    + unfold bind at 1. rewrite Hq, Hn.
      destruct (String.eqb_spec z "/") as [->|Hroot].
      * rewrite bind_assoc, bind_print, bind_tear_down.
        match goal with |- context [tear_down 1 ?x] =>
          destruct (sends_tear_down is_release 1 (fun c H => H) x)
            as [new [Hc Hf]] end.
        exists ((CExists "/", None) :: new).
        split; [rewrite Hc; simpl; now rewrite <- app_assoc|]. intros p r0 [Hin|Hin];
          [discriminate|]. now apply (release_is_no_delete _ _ _ Hf) in Hin.
      * unfold bind, ret, print, as_path, call. simpl.
        destruct (kz_delete kazoo z s') as [[[]|e] s2]; simpl;
          eexists; rewrite <- app_assoc; (split; [reflexivity|]);
          intros p r0 [Hin|[Hin|[]]]; inversion Hin; subst;
          (split; [exact Hroot|]); (split; [reflexivity|]);
          (split; [now exists s, s'|reflexivity]).
    + rewrite bind_stuck by (intros w'; rewrite Hq; apply tear_down_not_Return).
      rewrite Hq.
      match goal with |- context [tear_down 1 ?x] =>
        destruct (sends_tear_down is_release 1 (fun c H => H) x)
          as [new [Hc Hf]] end.
      exists ((CExists z, None) :: new).
      split; [rewrite Hc; simpl; now rewrite <- app_assoc|]. intros p r0 [Hin|Hin];
        [discriminate|]. now apply (release_is_no_delete _ _ _ Hf) in Hin.
    + rewrite bind_stuck by (intros w'; rewrite Hq; discriminate). rewrite Hq.
      eexists. split; [reflexivity|]. intros p r0 [Hin|[]]. discriminate.
Qed.

Lemma for_each_print (data : list string) (w : world E) :
  for_each print data w = (Return tt, with_stdout (stdout w ++ data) w).
Proof.
  revert w. induction data as [|x t IH]; intros w.
  - simpl. unfold ret, with_stdout. rewrite app_nil_r. now destruct w.
  - rewrite for_each_cons, bind_print, IH. unfold with_stdout. simpl.
    now rewrite <- app_assoc.
Qed.

(** X4 ([cmd_list]).
    [cmd_list] on an existing node: one [get_children] call, not followed
    by any other; the names are printed one per line in the order the
    ensemble gave them, or one line says that there is none. *)
Theorem cmd_list_prints_children_in_order
        (w : world E) (z : string) (s s1 s2 : conn kazoo) (data : list string) :
  zk w = Some s -> znode (args w) = Some z -> z <> "" ->
  kz_exists kazoo z s = (Ok true, s1) ->
  kz_get_children kazoo z s1 = (Ok data, s2) ->
  cmd_list w =
  (Return tt,
   with_stdout
     (stdout w ++ match data with
                  | [] => ["Znode " ++ z ++ " has no child"]
                  | _ => data
                  end)
     (with_calls (calls w ++ [(CExists z, None); (CGetChildren z, None)])
        (with_zk (Some s2) w))).
Proof.
  intros Hk Hn Hz Hx Hg. unfold cmd_list. unfold bind at 1.
  destruct (check_znode_exists_cases w)
    as [[Ht _]|[z' [Hn' [_ [[Hk' _]|[s' [r [s1' [Hk' [Hx' Hq]]]]]]]]]].
  - rewrite Hn in Ht. simpl in Ht.
    destruct (String.eqb_spec z ""); [contradiction|discriminate].
  - congruence.
  - rewrite Hn in Hn'. inversion Hn'; subst z'.
    rewrite Hk in Hk'. inversion Hk'; subst s'.
    rewrite Hx in Hx'. inversion Hx'; subst r s1'. simpl in Hq. rewrite Hq.
    unfold bind at 1, get_args. simpl args. rewrite Hn.
    unfold bind, as_path, ret, call. simpl. rewrite Hg.
    destruct data as [|x t].
    + unfold print, with_stdout, with_calls, with_zk. simpl.
      now rewrite <- app_assoc.
    + rewrite for_each_print. unfold with_stdout, with_calls, with_zk. simpl.
      now rewrite <- app_assoc.
Qed.

(** X5 ([cmd_get]).
    On an existing node that holds data, [cmd_get] asks whether the node
    exists and gets it.  When the data is well-formed UTF-8 it prints the
    text without its trailing white space (the white space of Unicode),
    on one line, and returns; when it is not, it prints nothing and ends
    in the [UnicodeDecodeError] of [decode]. *)
Theorem cmd_get_prints_stripped_data
        (w : world E) (z : string) (s s1 s2 : conn kazoo) (data : string) :
  zk w = Some s -> znode (args w) = Some z -> z <> "" ->
  kz_exists kazoo z s = (Ok true, s1) ->
  kz_get kazoo z s1 = (Ok (Some data), s2) ->
  (decodable data = true ->
   cmd_get w =
   (Return tt,
    with_stdout (stdout w ++ [rstrip data])
      (with_calls (calls w ++ [(CExists z, None); (CGet z, None)])
         (with_zk (Some s2) w)))) /\
  (decodable data = false ->
   cmd_get w =
   (Raise (UnicodeDecodeError (decode_error data)),
    with_calls (calls w ++ [(CExists z, None); (CGet z, None)])
      (with_zk (Some s2) w))).
Proof.
  intros Hk Hn Hz Hx Hg.
  assert (Hq0 : check_znode_exists w =
                (Return tt, with_calls (calls w ++ [(CExists z, None)])
                              (with_zk (Some s1) w))).
  { destruct (check_znode_exists_cases w)
      as [[Ht _]|[z' [Hn' [_ [[Hk' _]|[s' [r [s1' [Hk' [Hx' Hq]]]]]]]]]].
    - rewrite Hn in Ht. simpl in Ht.
      destruct (String.eqb_spec z ""); [contradiction|discriminate].
    - congruence.
    - rewrite Hn in Hn'. inversion Hn'; subst z'.
      rewrite Hk in Hk'. inversion Hk'; subst s'.
      rewrite Hx in Hx'. inversion Hx'; subst r s1'. exact Hq. }
  split; intros Hd; unfold cmd_get; unfold bind at 1; rewrite Hq0;
    unfold bind at 1, get_args; simpl args; rewrite Hn;
    unfold bind, as_path, ret, call; simpl; rewrite Hg, Hd;
    unfold print, raise, with_stdout, with_calls, with_zk; simpl;
    now rewrite <- app_assoc.
Qed.

(** *** The tree walk: where it goes and what it depends on *)

Lemma prefix_app (a b : string) : String.prefix a (a ++ b) = true.
Proof.
  induction a as [|c a IH]; simpl; [now destruct b|].
  destruct (ascii_dec c c); [exact IH|contradiction].
Qed.

Lemma prefix_refl (a : string) : String.prefix a a = true.
Proof.
  induction a as [|c a IH]; simpl; [reflexivity|].
  destruct (ascii_dec c c); [exact IH|contradiction].
Qed.

Lemma prefix_trans (a b c : string) :
  String.prefix a b = true -> String.prefix b c = true -> String.prefix a c = true.
Proof.
  revert b c. induction a as [|x a IH]; intros b c Hab Hbc; [now destruct c|].
  destruct b as [|y b]; [discriminate|]. destruct c as [|z c]; [discriminate|].
  simpl in *. destruct (ascii_dec x y) as [->|]; [|discriminate].
  destruct (ascii_dec y z) as [->|]; [|discriminate].
  now apply (IH b c).
Qed.

Lemma walked_refl path (w : world E) s : zk w = Some s -> walked path w w.
Proof.
  intros Hz. split; [now exists s|]. exists [], []. now rewrite !app_nil_r.
Qed.

Lemma walked_trans path (w1 w2 w3 : world E) :
  walked path w1 w2 -> walked path w2 w3 -> walked path w1 w3.
Proof.
  intros [_ [n1 [o1 [Hc1 [Ho1 [Hl1 Hf1]]]]]] [Hz [n2 [o2 [Hc2 [Ho2 [Hl2 Hf2]]]]]].
  split; [exact Hz|]. exists (n1 ++ n2)%list, (o1 ++ o2)%list.
  rewrite Hc2, Hc1, Ho2, Ho1, !app_assoc, !length_app, Hl1, Hl2.
  repeat split. apply Forall_app. now split.
Qed.

Lemma walked_below path child (w w' : world E) :
  String.prefix path child = true -> walked child w w' -> walked path w w'.
Proof.
  intros Hp [Hz [new [out [Hc [Ho [Hl Hf]]]]]]. split; [exact Hz|].
  exists new, out. repeat split; trivial.
  eapply Forall_impl; [|exact Hf]. intros c [p [Hc' Hp']]. exists p.
  split; [exact Hc'|]. now apply (prefix_trans _ child).
Qed.

Lemma walked_for_each path (walk : string -> M E unit) :
  (forall c w s, zk w = Some s -> walked path w (snd (walk c w))) ->
  forall children w s, zk w = Some s ->
    walked path w (snd (for_each walk children w)).
Proof.
  intros Hw children. induction children as [|c t IH]; intros w s Hz.
  - now apply (walked_refl _ _ s).
  - rewrite for_each_cons. unfold bind. pose proof (Hw c w s Hz) as H1.
    destruct (walk c w) as [[[]|e|x] w1]; simpl in *; trivial.
    destruct H1 as [[s1 Hz1] H1]. eapply walked_trans; [split; eauto|].
    now apply (IH w1 s1).
Qed.

Lemma ZNode_walked depth : forall path level (w : world E) s,
  zk w = Some s -> walked path w (snd (ZNode depth path level w)).
Proof.
  induction depth as [|d IH]; intros path level w s Hz.
  - now apply (walked_refl _ _ s).
  - rewrite ZNode_S. unfold bind at 1. rewrite show_tree_node_eq.
    unfold try_except, bind, call. simpl. rewrite Hz.
    destruct (kz_get_children kazoo path s) as [[children|e] s'].
    + set (w2 := with_calls _ _).
      assert (H2 : walked path w w2).
      { split; [now exists s'|]. eexists [_], [_]. repeat split.
        constructor; [|constructor]. exists path. split; [reflexivity|].
        apply prefix_refl. }
      assert (H3 : walked path w2
                     (snd (for_each (fun c => ZNode d (path ++ "/" ++ c) (level + 1))
                                    children w2))).
      { apply (walked_for_each path _) with (s := s'); [|reflexivity].
        intros c w0 s0 Hz0. apply (walked_below path (path ++ "/" ++ c));
          [apply prefix_app | now apply (IH _ _ _ s0)]. }
      destruct (for_each _ children w2) as [[[]|e|x] w3]; simpl in *;
        try (now apply (walked_trans _ _ w2)).
      destruct (is_NoNodeError e); simpl; now apply (walked_trans _ _ w2).
    + assert (H2 : walked path w
                (with_calls (calls w ++ [(CGetChildren path, Some e)])
                   (with_zk (Some s')
                      (with_stdout (stdout w ++ [tree_line level path]) w)))).
      { split; [now exists s'|]. eexists [_], [_]. repeat split.
        constructor; [|constructor]. exists path. split; [reflexivity|].
        apply prefix_refl. }
      destruct (is_NoNodeError e); simpl; exact H2.
Qed.

(** X14 (the walk stays in its subtree).
    The tree walk lists nothing outside the subtree it was started on, and
    prints one line per listing: all the calls it makes are
    [get_children] calls on paths that extend the starting path, and as
    many lines are printed as such calls are made.  [cmd_tree] starts it
    on [--znode], or on the root when none is given. *)
Theorem tree_walk_stays_in_subtree
        (depth level : nat) (path : string) (w : world E) (s : conn kazoo) :
  zk w = Some s ->
  walked path w (snd (ZNode depth path level w)) /\
  walked (if truthy (znode (args w)) then fmt (znode (args w)) else "/")
         w (snd (cmd_tree w)).
Proof.
  intros Hz. split; [now apply (ZNode_walked _ _ _ _ s)|].
  unfold cmd_tree, bind, get_args, set_args, ret. simpl.
  destruct (truthy (znode (args w))); simpl.
  - now apply (ZNode_walked _ _ _ _ s).
  - destruct (ZNode_walked recursion_limit "/" 0 (with_args
       {| target := target (args w); action := action (args w);
          znode := Some "/"; values := values (args w);
          input := input (args w); value := value (args w) |} w) s Hz)
      as [Hs H]. split; [exact Hs|exact H].
Qed.

(** *** Two walks of one snapshot *)

Lemma same_render_for_each (walk : string -> M E unit) :
  (forall c w1 w2 s1 s2, zk w1 = Some s1 -> zk w2 = Some s2 ->
      same_render w1 w2 (walk c w1) (walk c w2)) ->
  forall children w1 w2 s1 s2, zk w1 = Some s1 -> zk w2 = Some s2 ->
    same_render w1 w2 (for_each walk children w1) (for_each walk children w2).
Proof.
  intros Hw children. induction children as [|c t IH]; intros w1 w2 s1 s2 H1 H2.
  - split; [reflexivity|]. split; [now exists s1|]. split; [now exists s2|].
    exists []. simpl. now rewrite !app_nil_r.
  - rewrite !for_each_cons. unfold bind.
    destruct (Hw c w1 w2 s1 s2 H1 H2) as [Ho [[t1 Hz1] [[t2 Hz2] [o1 [Ha Hb]]]]].
    destruct (walk c w1) as [r1 v1], (walk c w2) as [r2 v2]. simpl in *. subst r2.
    destruct r1 as [[]|e|x].
    + destruct (IH v1 v2 t1 t2 Hz1 Hz2) as [Ho' [Hz1' [Hz2' [o2 [Ha' Hb']]]]].
      split; [exact Ho'|]. split; [exact Hz1'|]. split; [exact Hz2'|].
      exists (o1 ++ o2)%list. now rewrite Ha', Hb', Ha, Hb, !app_assoc.
    + split; [reflexivity|]. split; [now exists t1|]. split; [now exists t2|].
      now exists o1.
    + split; [reflexivity|]. split; [now exists t1|]. split; [now exists t2|].
      now exists o1.
Qed.

Lemma ZNode_same_render depth :
  snapshot ->
  forall path level (w1 w2 : world E) s1 s2,
    zk w1 = Some s1 -> zk w2 = Some s2 ->
    same_render w1 w2 (ZNode depth path level w1) (ZNode depth path level w2).
Proof.
  intros Hsnap. induction depth as [|d IH]; intros path level w1 w2 s1 s2 H1 H2.
  - split; [reflexivity|]. split; [now exists s1|]. split; [now exists s2|].
    exists []. simpl. now rewrite !app_nil_r.
  - rewrite !ZNode_S. unfold bind at 1 3. rewrite !show_tree_node_eq.
    unfold try_except, bind, call. simpl. rewrite H1, H2.
    pose proof (Hsnap path s1 s2) as Hs.
    destruct (kz_get_children kazoo path s1) as [r1 t1],
             (kz_get_children kazoo path s2) as [r2 t2]. simpl in Hs. subst r2.
    destruct r1 as [children|e].
    + set (v1 := with_calls _ _). set (v2 := with_calls _ _).
      destruct (same_render_for_each
                  (fun c => ZNode d (path ++ "/" ++ c) (level + 1))
                  (fun c u1 u2 a1 a2 Ha Hb => IH _ _ u1 u2 a1 a2 Ha Hb)
                  children v1 v2 t1 t2 eq_refl eq_refl)
        as [Ho [Hz1 [Hz2 [o [Ha Hb]]]]].
      destruct (for_each _ children v1) as [q1 u1],
               (for_each _ children v2) as [q2 u2]. simpl in *. subst q2.
      assert (Hr : exists out,
                 stdout u1 = (stdout w1 ++ out)%list /\
                 stdout u2 = (stdout w2 ++ out)%list).
      { exists (tree_line level path :: o). rewrite Ha, Hb. unfold v1, v2. simpl.
        now rewrite <- !app_assoc. }
      destruct q1 as [[]|e|x]; [| destruct (is_NoNodeError e) |];
        simpl; (split; [reflexivity|]); (split; [exact Hz1|]);
        (split; [exact Hz2|]); exact Hr.
    + destruct (is_NoNodeError e); simpl; (split; [reflexivity|]);
        (split; [now exists t1|]); (split; [now exists t2|]);
        exists [tree_line level path]; now split.
Qed.

(** X15 (the tree view of a snapshot).
    When the listings do not depend on the state of the client, the tree
    view depends on nothing but them: started in any two processes that
    have a client, the walk ends the same way and prints the same lines.
    In particular two walks in a row print the same. *)
Theorem tree_render_deterministic
        (depth level : nat) (path : string) (w1 w2 : world E)
        (s1 s2 : conn kazoo) :
  snapshot ->
  zk w1 = Some s1 -> zk w2 = Some s2 ->
  same_render w1 w2 (ZNode depth path level w1) (ZNode depth path level w2) /\
  same_render w1 (snd (ZNode depth path level w1))
    (ZNode depth path level w1)
    (ZNode depth path level (snd (ZNode depth path level w1))).
Proof.
  intros Hsnap H1 H2. split; [now apply (ZNode_same_render _ Hsnap _ _ _ _ s1 s2)|].
  destruct (ZNode_walked depth path level w1 s1 H1) as [[t Ht] _].
  now apply (ZNode_same_render _ Hsnap _ _ _ _ s1 t).
Qed.

(** *** Mapping lines *)

Lemma contains_cons (c : ascii) (t sub : string) :
  contains (String c t) sub = String.prefix sub (String c t) || contains t sub.
Proof. reflexivity. Qed.

Lemma contains_colon_cons (c : ascii) (t : string) :
  contains (String c t) ":" = Ascii.eqb c ":" || contains t ":".
Proof.
  rewrite contains_cons. f_equal. cbn [String.prefix].
  destruct (ascii_dec ":" c) as [<-|Hn].
  - now destruct t.
  - destruct (Ascii.eqb_spec c ":"); [congruence|reflexivity].
Qed.

Lemma split1_colon (s : string) :
  (contains s ":" = false /\ split1 ":" s = [s]) \/
  (exists k p, s = k ++ ":" ++ p /\ contains k ":" = false /\
               split1 ":" s = [k; p]).
Proof.
  induction s as [|c t IH].
  - left. split; reflexivity.
  - rewrite contains_colon_cons. simpl split1.
    destruct (Ascii.eqb_spec c ":") as [->|Hc].
    + right. exists "", t. repeat split.
    + simpl. destruct IH as [[Hn Hs]|[k [p [Ht [Hn Hs]]]]].
      * left. rewrite Hs. now split.
      * right. exists (String c k), p. rewrite Hs, Ht. repeat split.
        rewrite contains_colon_cons, Hn.
        destruct (Ascii.eqb_spec c ":"); [contradiction|reflexivity].
Qed.

Lemma contains_app_colon (k p : string) :
  contains (k ++ ":" ++ p) ":" = true.
Proof.
  induction k as [|c k IH]; cbn [append] in *.
  - rewrite contains_colon_cons. reflexivity.
  - rewrite contains_colon_cons, IH. apply orb_true_r.
Qed.

Lemma first_colon_unique (k p k' p' : string) :
  k ++ ":" ++ p = k' ++ ":" ++ p' ->
  contains k ":" = false -> contains k' ":" = false ->
  k = k' /\ p = p'.
Proof.
  revert k'. induction k as [|c k IH]; intros [|c' k'] H Hk Hk';
    cbn [append] in *.
  - inversion H. now split.
  - inversion H; subst c'. rewrite contains_colon_cons in Hk'. discriminate.
  - inversion H; subst c. rewrite contains_colon_cons in Hk. discriminate.
  - inversion H; subst c'. rewrite contains_colon_cons in Hk, Hk'.
    apply orb_false_iff in Hk, Hk'.
    destruct (IH k' H2 (proj2 Hk) (proj2 Hk')) as [-> ->]. now split.
Qed.

Lemma entry_of_spec (l k p : string) :
  entry_of l = Some (k, p) <->
  rstrip l = k ++ ":" ++ p /\ contains k ":" = false.
Proof.
  unfold entry_of. destruct (split1_colon (rstrip l))
    as [[Hn Hs]|[k0 [p0 [Ht [Hn Hs]]]]]; rewrite Hs.
  - split; [discriminate|]. intros [Hr _]. rewrite Hr, contains_app_colon in Hn.
    discriminate.
  - split.
    + intros H. inversion H; subst. now split.
    + intros [Hr Hk]. rewrite Ht in Hr.
      destruct (first_colon_unique _ _ _ _ Hr Hn Hk) as [-> ->]. reflexivity.
Qed.

Lemma entry_of_no_colon (l : string) :
  entry_of l = None <-> contains (rstrip l) ":" = false.
Proof.
  unfold entry_of. destruct (split1_colon (rstrip l))
    as [[Hn Hs]|[k0 [p0 [Ht [Hn Hs]]]]]; rewrite Hs.
  - now split.
  - split; [discriminate|]. rewrite Ht, contains_app_colon. discriminate.
Qed.

(** X9 (mapping lines).
    A mapping line is cut at its first colon, and only there: the loops of
    [cmd_deploy] read the pair (k, p) off a line exactly when the line,
    without its trailing white space, is k, a colon, p, and k holds no
    colon; the source p may hold colons.  A line without any colon, a
    blank line included, makes the unpacking raise [ValueError]. *)
Theorem mapping_line_cut_at_first_colon (l k p : string) (w : world E) :
  (unpack2 (split1 ":" (rstrip l)) w = (Return (k, p), w) <->
   rstrip l = k ++ ":" ++ p /\ contains k ":" = false) /\
  (unpack2 (split1 ":" (rstrip l)) w
   = (Raise (ValueError "not enough values to unpack (expected 2, got 1)"), w) <->
   contains (rstrip l) ":" = false).
Proof.
  rewrite unpack2_entry. split.
  - rewrite <- entry_of_spec. destruct (entry_of l) as [[k0 p0]|]; split;
      intros H; try discriminate; inversion H; reflexivity.
  - rewrite <- entry_of_no_colon. destruct (entry_of l) as [[k0 p0]|]; split;
      intros H; try discriminate; reflexivity.
Qed.

(** *** Comments and malformed lines *)

Lemma for_each_filter {A} (body : A -> M E unit) (keep : A -> bool) l :
  (forall x w, keep x = false -> body x w = (Return tt, w)) ->
  forall w, for_each body l w = for_each body (filter keep l) w.
Proof.
  intros Hb. induction l as [|x t IH]; intros w; [reflexivity|].
  simpl filter. destruct (keep x) eqn:Hk.
  - rewrite !for_each_cons. unfold bind.
    destruct (body x w) as [[[]|e|c] w1]; try reflexivity. apply IH.
  - rewrite for_each_cons. unfold bind. rewrite (Hb x w Hk). apply IH.
Qed.

(** X10 (comments).
    Comment lines have no effect on a deployment: [cmd_deploy] does what
    its two loops do on the lines that do not start with "#". *)
Theorem deploy_ignores_comments (w : world E) (content : string) :
  truthy (input (args w)) = true ->
  resolve (cwd w) (fmt (input (args w))) = Some (File content) ->
  cmd_deploy w =
  bind (deploy_scan (filter is_entry_line (readlines content)))
       (fun _ => deploy_commit (filter is_entry_line (readlines content)))
       (opened w).
Proof.
  intros Ht Hr. rewrite (cmd_deploy_opened _ _ Ht Hr).
  unfold bind, deploy_scan, deploy_commit.
  rewrite (for_each_filter deploy_check is_entry_line).
  2:{ intros l w0 Hk. apply deploy_check_comment. unfold is_entry_line in Hk.
      now destruct (startswith l "#"). }
  destruct (for_each deploy_check _ (opened w)) as [[[]|e|c] w1]; try reflexivity.
  apply for_each_filter. intros l w0 Hk. apply deploy_apply_comment.
  unfold is_entry_line in Hk. now destruct (startswith l "#").
Qed.

Lemma deploy_check_outcome l (w : world E) :
  fst (deploy_check l w) = Return tt \/ fst (deploy_check l w) = Exit 1 \/
  exists m, fst (deploy_check l w) = Raise (ValueError m).
Proof.
  destruct (startswith l "#") eqn:H.
  - left. now rewrite deploy_check_comment.
  - destruct (entry_of l) as [[k p]|] eqn:He.
    + destruct (resolve (cwd w) p) as [n|] eqn:Hr.
      * left. now rewrite (deploy_check_readable _ _ _ _ _ H He Hr).
      * right. left. now rewrite (deploy_check_unreadable _ _ _ _ H He Hr).
    + right. right. rewrite (deploy_check_malformed _ _ H He). now eexists.
Qed.

Lemma deploy_scan_outcome lines : forall (w : world E),
  fst (deploy_scan lines w) = Return tt \/ fst (deploy_scan lines w) = Exit 1 \/
  exists m, fst (deploy_scan lines w) = Raise (ValueError m).
Proof.
  unfold deploy_scan. induction lines as [|l t IH]; intros w; [now left|].
  rewrite for_each_cons. unfold bind.
  destruct (deploy_check_outcome l w) as [H|[H|[m H]]];
    destruct (deploy_check l w) as [[[]|e|c] w1]; simpl in H; try discriminate.
  - apply IH.
  - right. left. exact H.
  - right. right. now exists m.
Qed.

Lemma deploy_scan_stuck l post :
  (forall w : world E, fst (deploy_check l w) <> Return tt) ->
  forall pre (w : world E), fst (deploy_scan (pre ++ l :: post) w) <> Return tt.
Proof.
  intros Hl pre. unfold deploy_scan. induction pre as [|l0 pre IH]; intros w;
    simpl app; rewrite for_each_cons; unfold bind.
  - specialize (Hl w). destruct (deploy_check l w) as [[[]|e|c] w1];
      simpl in *; congruence.
  - destruct (deploy_check l0 w) as [[[]|e|c] w1]; simpl; try discriminate.
    apply IH.
Qed.

(** X11 (malformed lines).
    A line that is not a comment and holds no colon -- a blank line is
    one -- anywhere in the mapping file keeps [cmd_deploy] from calling the
    client at all: the run ends in the first loop, in the [ValueError] of
    the unpacking or with status 1 on an unreadable source met before. *)
Theorem deploy_malformed_line_blocks_deploy
        (w : world E) (content : string) (pre : list string) (l : string)
        (post : list string) :
  truthy (input (args w)) = true ->
  resolve (cwd w) (fmt (input (args w))) = Some (File content) ->
  readlines content = (pre ++ l :: post)%list ->
  startswith l "#" = false ->
  contains (rstrip l) ":" = false ->
  exists o w',
    cmd_deploy w = (o, w') /\
    (o = Exit 1 \/ exists m, o = Raise (ValueError m)) /\
    calls w' = calls w /\ zk w' = zk w.
Proof.
  intros Ht Hr Hl H Hc. rewrite (cmd_deploy_opened _ _ Ht Hr), Hl.
  assert (Hs : fst (deploy_scan (pre ++ l :: post) (opened w)) <> Return tt).
  { apply deploy_scan_stuck. intros w0.
    rewrite (deploy_check_malformed _ _ H (proj2 (entry_of_no_colon l) Hc)).
    discriminate. }
  destruct (deploy_scan_quiet (pre ++ l :: post) (opened w)) as [Hq [Hz _]].
  destruct (deploy_scan_outcome (pre ++ l :: post) (opened w)) as [Ho|Ho];
    [contradiction|].
  unfold bind.
  destruct (deploy_scan (pre ++ l :: post) (opened w)) as [[[]|e|c] w1];
    simpl in *.
  - contradiction.
  - exists (Raise e), w1. destruct Ho as [Ho|[m Ho]]; [discriminate|].
    inversion Ho; subst. repeat split; trivial. right. now exists m.
  - exists (Exit c), w1. destruct Ho as [Ho|[m Ho]]; [|discriminate].
    inversion Ho; subst. repeat split; trivial. now left.
Qed.

(** *** What a deployment sends *)

Lemma deploy_apply_sets l (w : world E) :
  exists new,
    calls (snd (deploy_apply l w)) = (calls w ++ new)%list /\
    forall k v r, In (CSet k v, r) new ->
      startswith l "#" = false /\
      exists p payload c,
        entry_of l = Some (k, p) /\
        resolve (cwd w) p = Some (File payload) /\
        canonical (rstrip (read payload)) = Some c /\
        v = Some (Bytes c).
Proof.
  destruct (startswith l "#") eqn:H.
  - rewrite (deploy_apply_comment _ _ H). exists []. rewrite app_nil_r.
    split; [reflexivity|]. intros k v r [].
  - destruct (entry_of l) as [[k p]|] eqn:He.
    + destruct (resolve (cwd w) p) as [[payload|]|] eqn:Hr.
      * destruct (canonical (rstrip (read payload))) as [c|] eqn:Hj.
        -- rewrite (deploy_apply_valid _ _ _ _ _ _ H He Hr Hj).
           destruct (create_and_set_calls (staged k c p w)) as [_ [new [Hc Hs]]].
           exists new. split; [exact Hc|]. intros k0 v r Hin.
           destruct (Hs k0 v r Hin) as [Hk Hv]. simpl in Hk, Hv.
           inversion Hk; subst k0. split; [reflexivity|].
           now exists p, payload, c.
        -- rewrite (deploy_apply_invalid _ _ _ _ _ H He Hr Hj).
           exists []. rewrite app_nil_r. split; [reflexivity|]. intros ? ? ? [].
      * exists []. rewrite app_nil_r. unfold deploy_apply. rewrite H.
        unfold bind, open_. rewrite unpack2_entry, He. simpl. rewrite Hr.
        split; [reflexivity|]. intros ? ? ? [].
      * exists []. rewrite app_nil_r. unfold deploy_apply. rewrite H.
        unfold bind, open_. rewrite unpack2_entry, He. simpl. rewrite Hr.
        split; [reflexivity|]. intros ? ? ? [].
    + exists []. rewrite app_nil_r. unfold deploy_apply. rewrite H.
      unfold bind. rewrite unpack2_entry, He.
      split; [reflexivity|]. intros ? ? ? [].
Qed.

Lemma deploy_scan_cwd lines : forall (w w0 : world E),
  deploy_scan lines w = (Return tt, w0) ->
  cwd w0 = scan_cwd (cwd w) lines.
Proof.
  unfold deploy_scan. induction lines as [|l t IH]; intros w w0 Hs.
  - simpl in Hs. inversion Hs. reflexivity.
  - rewrite for_each_cons in Hs. unfold bind in Hs. simpl scan_cwd.
    destruct (startswith l "#") eqn:H.
    + rewrite (deploy_check_comment _ _ H) in Hs. now apply IH.
    + destruct (entry_of l) as [[k p]|] eqn:He.
      * destruct (resolve (cwd w) p) as [n|] eqn:Hr.
        -- rewrite (deploy_check_readable _ _ _ _ _ H He Hr) in Hs.
           now rewrite (IH _ _ Hs).
        -- rewrite (deploy_check_unreadable _ _ _ _ H He Hr) in Hs.
           discriminate.
      * rewrite (deploy_check_malformed _ _ H He) in Hs. discriminate.
Qed.

Lemma deploy_commit_sets lines : forall (w : world E),
  exists new,
    calls (snd (deploy_commit lines w)) = (calls w ++ new)%list /\
    forall k v r, In (CSet k v, r) new ->
      exists l p payload c,
        In l lines /\ startswith l "#" = false /\
        entry_of l = Some (k, p) /\
        resolve (cwd w) p = Some (File payload) /\
        canonical (rstrip (read payload)) = Some c /\
        v = Some (Bytes c).
Proof.
  unfold deploy_commit. induction lines as [|l t IH]; intros w.
  - exists []. simpl. rewrite app_nil_r. split; [reflexivity|]. intros ? ? ? [].
  - rewrite for_each_cons. unfold bind.
    destruct (deploy_apply_sets l w) as [n1 [H1 S1]].
    destruct (deploy_apply_frame l w) as [Hd _].
    assert (Hhead : forall k v r, In (CSet k v, r) n1 ->
              exists l0 p payload c,
                In l0 (l :: t) /\ startswith l0 "#" = false /\
                entry_of l0 = Some (k, p) /\
                resolve (cwd w) p = Some (File payload) /\
                canonical (rstrip (read payload)) = Some c /\
                v = Some (Bytes c)).
    { intros k v r Hin. destruct (S1 k v r Hin) as [Hc [p [payload [c Hx]]]].
      exists l, p, payload, c. split; [now left|]. now split. }
    destruct (deploy_apply l w) as [[[]|e|c] w1]; simpl in *;
      try (exists n1; now split).
    destruct (IH w1) as [n2 [H2 S2]]. exists (n1 ++ n2)%list.
    split; [now rewrite H2, H1, app_assoc|]. intros k v r Hin.
    apply in_app_or in Hin. destruct Hin as [Hin|Hin]; [now apply (Hhead k v r)|].
    destruct (S2 k v r Hin) as [l0 [p [payload [c0 [Hl Hx]]]]].
    rewrite Hd in Hx.
    exists l0, p, payload, c0. split; [now right|exact Hx].
Qed.

(** X12 (what a deployment writes).
    Every [set] a deployment sends is for the target of an entry of the
    mapping file, and carries, as [bytes], the canonical form of the JSON
    held by the file that the source of that entry names in the directory
    the process is in during the second loop, which is the directory the
    first loop has left it in: no other node is set, and no other
    value. *)
Theorem deploy_sets_only_mapped_payloads (w : world E) (content : string) :
  truthy (input (args w)) = true ->
  resolve (cwd w) (fmt (input (args w))) = Some (File content) ->
  exists new,
    calls (snd (cmd_deploy w)) = (calls w ++ new)%list /\
    forall k v r, In (CSet k v, r) new ->
      exists l p payload c,
        In l (readlines content) /\ startswith l "#" = false /\
        entry_of l = Some (k, p) /\
        resolve (scan_cwd (cwd w) (readlines content)) p = Some (File payload) /\
        canonical (rstrip (read payload)) = Some c /\
        v = Some (Bytes c).
Proof.
  intros Ht Hr. rewrite (cmd_deploy_opened _ _ Ht Hr). unfold bind.
  destruct (deploy_scan_quiet (readlines content) (opened w)) as [Hq _].
  destruct (deploy_scan (readlines content) (opened w)) as [[[]|e|c] w1] eqn:Hs;
    simpl in Hq.
  - destruct (deploy_commit_sets (readlines content) w1) as [new [Hc Hn]].
    exists new. split; [now rewrite Hc, Hq|].
    rewrite (deploy_scan_cwd _ _ _ Hs) in Hn. exact Hn.
  - exists []. rewrite app_nil_r. split; [exact Hq|]. intros ? ? ? [].
  - exists []. rewrite app_nil_r. split; [exact Hq|]. intros ? ? ? [].
Qed.

(** *** A batch under service errors *)

Lemma create_and_set_attempt (w : world E) z b s :
  service_errors_only ->
  zk w = Some s -> znode (args w) = Some z ->
  values (args w) = Some (Bytes b) ->
  exists w',
    create_and_set w = (Return tt, w') /\
    cwd w' = cwd w /\ (exists s', zk w' = Some s') /\
    exists new, calls w' = (calls w ++ new)%list /\ exists_paths new = [z].
Proof.
  intros Hse Hz Hn Hv. rewrite create_and_set_eq.
  unfold create_and_set_try, bind, get_args, as_path, print, ret, raise, call.
  rewrite Hn, Hv. simpl. rewrite Hz.
  destruct (kz_exists kazoo z s) as [[x|e] s1] eqn:Hx; simpl.
  - destruct x; simpl.
    + destruct (kz_set kazoo z (Some (Bytes b)) s1) as [[[]|e] s2] eqn:Hs; simpl.
      * eexists. split; [reflexivity|]. split; [reflexivity|].
        split; [now eexists|]. eexists. rewrite <- app_assoc.
        split; [reflexivity|reflexivity].
      * destruct (Hse z b s1) as [_ [_ H3]].
        rewrite (H3 e s2 Hs). simpl.
        eexists. split; [reflexivity|]. split; [reflexivity|].
        split; [now eexists|]. eexists. rewrite <- app_assoc.
        split; [reflexivity|reflexivity].
    + destruct (kz_ensure_path kazoo z s1) as [[[]|e] s2] eqn:Hp; simpl.
      * destruct (kz_set kazoo z (Some (Bytes b)) s2) as [[[]|e] s3] eqn:Hs; simpl.
        -- eexists. split; [reflexivity|]. split; [reflexivity|].
           split; [now eexists|]. eexists. rewrite <- !app_assoc.
           split; [reflexivity|reflexivity].
        -- destruct (Hse z b s2) as [_ [_ H3]].
           rewrite (H3 e s3 Hs). simpl.
           eexists. split; [reflexivity|]. split; [reflexivity|].
           split; [now eexists|]. eexists. rewrite <- !app_assoc.
           split; [reflexivity|reflexivity].
      * destruct (Hse z b s1) as [_ [H2 _]]. rewrite (H2 e s2 Hp). simpl.
        eexists. split; [reflexivity|]. split; [reflexivity|].
        split; [now eexists|]. eexists. rewrite <- !app_assoc.
        split; [reflexivity|reflexivity].
  - destruct (Hse z b s) as [H1 _]. rewrite (H1 e s1 Hx). simpl.
    eexists. split; [reflexivity|]. split; [reflexivity|].
    split; [now eexists|]. eexists. split; [reflexivity|reflexivity].
Qed.

Lemma exists_paths_app (a b : list (zk_call * option exn)) :
  exists_paths (a ++ b) = (exists_paths a ++ exists_paths b)%list.
Proof. unfold exists_paths. apply flat_map_app. Qed.

Lemma deploy_commit_attempts lines :
  service_errors_only ->
  forall (w : world E) s,
    zk w = Some s ->
    Forall (entry_deployable (cwd w)) lines ->
    exists w',
      deploy_commit lines w = (Return tt, w') /\
      exists new, calls w' = (calls w ++ new)%list /\
                  exists_paths new = entry_keys lines.
Proof.
  intros Hse. unfold deploy_commit. induction lines as [|l t IH]; intros w s Hz Hf.
  - exists w. split; [reflexivity|]. exists []. now rewrite app_nil_r.
  - inversion Hf as [|? ? Hl Ht]; subst. rewrite for_each_cons. unfold bind.
    unfold entry_keys. simpl flat_map. fold (entry_keys t).
    destruct Hl as [Hc|[k [p [payload [v [He [Hr Hj]]]]]]].
    + rewrite (deploy_apply_comment _ _ Hc), Hc.
      destruct (IH w s Hz Ht) as [w' [Hq Hn]]. now exists w'.
    + destruct (startswith l "#") eqn:Hc.
      * rewrite (deploy_apply_comment _ _ Hc).
        destruct (IH w s Hz Ht) as [w' [Hq Hn]]. now exists w'.
      * rewrite (deploy_apply_valid _ _ _ _ _ _ Hc He Hr Hj), He.
        destruct (create_and_set_attempt (staged k v p w) k v s Hse Hz eq_refl eq_refl)
          as [w1 [Hq [Hd [[s1 Hz1] [n1 [Hc1 Hp1]]]]]].
        rewrite Hq. simpl in Hd, Hc1.
        assert (Ht' : Forall (entry_deployable (cwd w1)) t) by now rewrite Hd.
        destruct (IH w1 s1 Hz1 Ht') as [w' [Hq' [n2 [Hc2 Hp2]]]].
        exists w'. split; [exact Hq'|]. exists (n1 ++ n2)%list.
        split; [now rewrite Hc2, Hc1, app_assoc|].
        now rewrite exists_paths_app, Hp1, Hp2.
Qed.

(** X13 (a batch under service errors).
    Once the first loop has passed and every source holds JSON, a
    deployment against an ensemble that fails only with service errors
    returns, having asked the ensemble about the target of every entry,
    once each, in the order of the mapping file. *)
Theorem deploy_attempts_every_entry
        (w w0 : world E) (content : string) (s : conn kazoo) :
  service_errors_only ->
  truthy (input (args w)) = true ->
  resolve (cwd w) (fmt (input (args w))) = Some (File content) ->
  zk w = Some s ->
  deploy_scan (readlines content) (opened w) = (Return tt, w0) ->
  Forall (entry_deployable (cwd w0)) (readlines content) ->
  exists w',
    cmd_deploy w = (Return tt, w') /\
    exists new, calls w' = (calls w ++ new)%list /\
                exists_paths new = entry_keys (readlines content).
Proof.
  intros Hse Ht Hr Hz Hs Hf. rewrite (cmd_deploy_opened _ _ Ht Hr).
  unfold bind. rewrite Hs.
  destruct (deploy_scan_quiet (readlines content) (opened w)) as [Hq [Hzq _]].
  rewrite Hs in Hq, Hzq. simpl in Hq, Hzq.
  assert (Hz0 : zk w0 = Some s) by now rewrite Hzq.
  destruct (deploy_commit_attempts _ Hse w0 s Hz0 Hf) as [w' [Hc [new [Hn Hp]]]].
  exists w'. split; [exact Hc|]. exists new. split; [now rewrite Hn, Hq|exact Hp].
Qed.

(** *** [parse_args] and [main] *)

Lemma parse_opts_quiet argv : forall seen unknown a (w : world E),
  zk (snd (parse_opts argv seen unknown a w)) = zk w /\
  calls (snd (parse_opts argv seen unknown a w)) = calls w /\
  forall a' w', parse_opts argv seen unknown a w = (Return a', w') ->
    (seen = true -> In (action a) action_choices) ->
    In (action a') action_choices.
Proof.
  induction argv as [|[o v] rest IH]; intros seen unknown a w.
  - simpl. destruct (seen && negb unknown) eqn:Hs; simpl.
    + split; [reflexivity|]. split; [reflexivity|].
      intros a' w' H Hi. inversion H; subst. apply Hi. now destruct seen.
    + split; [reflexivity|]. split; [reflexivity|]. intros a' w' H. discriminate.
  - cbn [parse_opts].
    destruct (is_opt o "--target" "-t").
    { destruct (IH seen unknown
                  {| target := v; action := action a; znode := znode a;
                     values := values a; input := input a; value := value a |} w)
        as [Hz [Hc Hr]].
      split; [exact Hz|]. split; [exact Hc|exact Hr]. }
    destruct (is_opt o "--action" "-a").
    { destruct (existsb (String.eqb v) action_choices) eqn:Hv.
      - destruct (IH true unknown
                    {| target := target a; action := v; znode := znode a;
                       values := values a; input := input a; value := value a |} w)
          as [Hz [Hc Hr]].
        split; [exact Hz|]. split; [exact Hc|].
        intros a' w' H _. apply (Hr a' w' H). intros _.
        simpl. apply existsb_exists in Hv. destruct Hv as [x [Hin Hx]].
        apply String.eqb_eq in Hx. now subst.
      - split; [reflexivity|]. split; [reflexivity|]. intros a' w' H. discriminate. }
    destruct (is_opt o "--znode" "-z").
    { destruct (IH seen unknown
                  {| target := target a; action := action a; znode := Some v;
                     values := values a; input := input a; value := value a |} w)
        as [Hz [Hc Hr]].
      split; [exact Hz|]. split; [exact Hc|exact Hr]. }
    destruct (is_opt o "--values" "-v").
    { unfold bind, try_except, check_json, ret, raise, exit.
      destruct (canonical v) as [j|]; simpl.
      - destruct (IH seen unknown
                    {| target := target a; action := action a; znode := znode a;
                       values := Some (Str j); input := input a; value := value a |} w)
          as [Hz [Hc Hr]].
        split; [exact Hz|]. split; [exact Hc|exact Hr].
      - split; [reflexivity|]. split; [reflexivity|]. intros a' w' H. discriminate. }
    destruct (is_opt o "--input" "-i").
    { unfold bind.
      assert (Hf : zk (snd (check_file v w)) = zk w /\
                   calls (snd (check_file v w)) = calls w).
      { unfold check_file, bind, access. destruct (resolve (cwd w) v); now split. }
      destruct (check_file v w) as [[f|e|c] w1]; simpl in Hf; destruct Hf as [Hf1 Hf2].
      - destruct (IH seen unknown
                    {| target := target a; action := action a; znode := znode a;
                       values := values a; input := Some f; value := value a |} w1)
          as [Hz [Hc Hr]].
        rewrite Hz, Hc. split; [exact Hf1|]. split; [exact Hf2|exact Hr].
      - split; [exact Hf1|]. split; [exact Hf2|]. intros a' w' H. discriminate.
      - split; [exact Hf1|]. split; [exact Hf2|]. intros a' w' H. discriminate. }
    apply IH.
Qed.

Lemma dispatch_by_name (name : string) :
  In name action_choices ->
  (if contains name "get" then cmd_get
   else if contains name "stats" then cmd_stats
   else if contains name "set" then cmd_set
   else if contains name "deploy" then cmd_deploy
   else if contains name "del" then cmd_del
   else if contains name "list" then cmd_list
   else if contains name "tree" then cmd_tree
   else if contains name "status" then cmd_status
   else ret tt) = command_of (E := E) name.
Proof.
  intros H. unfold action_choices in H. simpl in H.
  repeat (destruct H as [<-|H]; [reflexivity|]). contradiction.
Qed.

Lemma then_tear_down_not_Return (m : M E unit) (code : Z) (w w' : world E) :
  bind m (fun _ => tear_down code) w <> (Return tt, w').
Proof.
  unfold bind. destruct (m w) as [[[]|e|c] w1]; try discriminate.
  apply tear_down_not_Return.
Qed.

(** X16 (arguments first).
    The command line is read before any connection is made: [parse_args]
    neither creates nor calls the client; when it does not return, [main]
    ends as it ended; when it returns, the action is one of the eight
    choices. *)
Theorem arguments_are_parsed_before_connecting
        (argv : list (string * string)) (w : world E) :
  zk (snd (parse_args argv w)) = zk w /\
  calls (snd (parse_args argv w)) = calls w /\
  match parse_args argv w with
  | (Return a, _) => In (action a) action_choices
  | (Raise e, w') => main argv w = (Raise e, w')
  | (Exit c, w') => main argv w = (Exit c, w')
  end.
Proof.
  unfold parse_args.
  destruct (parse_opts_quiet argv false false default_args w) as [Hz [Hc Hr]].
  split; [exact Hz|]. split; [exact Hc|].
  destruct (parse_opts argv false false default_args w) as [[a|e|c] w'] eqn:Hp.
  - apply (Hr a w' eq_refl). discriminate.
  - unfold main. now apply bind_Raise.
  - unfold main. now apply bind_Exit.
Qed.

Lemma main_eq (argv : list (string * string)) (w w1 : world E) (a : Args) :
  parse_args argv w = (Return a, w1) ->
  main argv w =
  bind set_up
       (fun _ => bind (command_of (action a)) (fun _ => tear_down 0))
       (with_args a w1).
Proof.
  intros Hp.
  assert (Ha : In (action a) action_choices).
  { destruct (parse_opts_quiet argv false false default_args w) as [_ [_ Hr]].
    apply (Hr a w1 Hp). discriminate. }
  unfold main. unfold bind at 1. rewrite Hp. unfold bind at 1, set_args.
  rewrite (dispatch_by_name _ Ha). reflexivity.
Qed.

(** X17 (the dispatch of [main]).
    [main] runs the command that bears the name of the action, between
    [set_up] and [tear_down(0)]: the substring tests of its dispatch pick,
    for each of the eight choices, the command of that very name.  And it
    never returns: the process ends in [exit] or in an exception. *)
Theorem main_runs_the_named_command
        (argv : list (string * string)) (w w1 : world E) (a : Args) :
  parse_args argv w = (Return a, w1) ->
  main argv w =
  bind set_up
       (fun _ => bind (command_of (action a)) (fun _ => tear_down 0))
       (with_args a w1) /\
  forall w', main argv w <> (Return tt, w').
Proof.
  intros Hp. pose proof (main_eq argv w w1 a Hp) as Hm.
  split; [exact Hm|]. intros w'. rewrite Hm. unfold bind at 1.
  destruct (set_up (with_args a w1)) as [[[]|e|c] w2]; try discriminate.
  apply then_tear_down_not_Return.
Qed.

Lemma set_up_connects (w : world E) s0 :
  kz_start kazoo (kz_new kazoo (target (args w))) = (Ok tt, s0) ->
  set_up w =
  (Return tt, with_calls (calls w ++ [(CStart, None)]) (with_zk (Some s0) w)).
Proof.
  intros Hs. unfold set_up, bind, get_args, call. simpl. now rewrite Hs.
Qed.

Lemma cmd_set_from_values (w : world E) :
  truthy (values (args w)) = true -> truthy (input (args w)) = false ->
  truthy (znode (args w)) = true ->
  cmd_set w = create_and_set w.
Proof.
  intros Hv Hi Hn. unfold cmd_set. unfold bind at 1, get_args.
  rewrite Hv, Hi. simpl. unfold check_option. rewrite Hn. reflexivity.
Qed.

(** X18 (set from the command line).
    [--action set --znode z --values j] on an existing node: what reaches
    [zk.set] is the [str] that [check_json] has returned for [j], not a
    [bytes].  When [zk.set] answers with an exception that is not a
    [ZookeeperError] -- Kazoo raises [TypeError] on a [str] -- nothing
    catches it: the process ends in that exception after [start],
    [exists] and [set], and never calls [stop] or [close]. *)
Theorem set_values_reach_the_client_as_text
        (w : world E) (z j c : string) (s0 s1 s2 : conn kazoo) (e : exn) :
  z <> "" -> c <> "" ->
  canonical j = Some c ->
  kz_start kazoo (kz_new kazoo "zk:2181") = (Ok tt, s0) ->
  kz_exists kazoo z s0 = (Ok true, s1) ->
  kz_set kazoo z (Some (Str c)) s1 = (Err e, s2) ->
  is_ZookeeperError e = false ->
  main [("--action", "set"); ("--znode", z); ("--values", j)] w =
  (Raise e,
   with_calls (calls w ++ [(CStart, None); (CExists z, None);
                           (CSet z (Some (Str c)), Some e)])
     (with_zk (Some s2)
        (with_args {| target := "zk:2181"; action := "set"; znode := Some z;
                      values := Some (Str c); input := None; value := None |}
           w))).
Proof.
  intros Hz Hc Hj Hs Hx Hset He.
  assert (Htz : truthy (Some z) = true).
  { simpl. destruct (String.eqb_spec z ""); [contradiction|reflexivity]. }
  assert (Htc : truthy (Some (Str c)) = true).
  { simpl. destruct (String.eqb_spec c ""); [contradiction|reflexivity]. }
  set (a := {| target := "zk:2181"; action := "set"; znode := Some z;
               values := Some (Str c); input := None; value := None |}).
  assert (Hp : parse_args [("--action", "set"); ("--znode", z); ("--values", j)] w
               = (Return a, w)).
  { unfold parse_args. cbn [parse_opts]. simpl.
    unfold bind, try_except, check_json. rewrite Hj. reflexivity. }
  rewrite (main_eq _ _ _ _ Hp). unfold bind at 1.
  rewrite (set_up_connects (with_args a w) s0 Hs).
  change (command_of (action a)) with (cmd_set (E := E)).
  unfold bind at 1. rewrite cmd_set_from_values by (simpl; trivial).
  rewrite create_and_set_eq.
  unfold create_and_set_try, bind, get_args, as_path, ret, call. simpl.
  rewrite Hx. simpl. rewrite Hset. simpl. rewrite He.
  unfold with_calls, with_zk, with_args. simpl. rewrite <- !app_assoc.
  reflexivity.
Qed.

(** *** [create_and_set], and the usage errors *)

(** X7 (create, then set).
    [create_and_set] creates only what is missing, and sets only what is
    there: [ensure_path] is sent only when [exists] has answered that the
    node is missing, and is then sent; [set] is sent, for that node and
    with [args.values], only when the node existed or [ensure_path] has
    succeeded. *)
Theorem create_and_set_creates_before_setting
        (w : world E) (z : string) (s s1 : conn kazoo) (b : bool) :
  zk w = Some s -> znode (args w) = Some z ->
  kz_exists kazoo z s = (Ok b, s1) ->
  exists new,
    calls (snd (create_and_set w)) = (calls w ++ new)%list /\
    (forall p r, In (CEnsurePath p, r) new -> b = false /\ p = z) /\
    (b = false -> exists r, In (CEnsurePath z, r) new) /\
    (forall p v r, In (CSet p v, r) new ->
       p = z /\ v = values (args w) /\
       (b = true \/ In (CEnsurePath z, None) new)).
Proof.
  intros Hz Hn Hx. rewrite create_and_set_eq.
  unfold create_and_set_try, bind, get_args, as_path, print, ret, raise, call.
  rewrite Hn. simpl. rewrite Hz, Hx. simpl. destruct b; simpl.
  - destruct (kz_set kazoo z (values (args w)) s1) as [[[]|e] s2]; simpl;
      [|destruct (is_ZookeeperError e); simpl];
      (eexists; rewrite <- app_assoc; split; [reflexivity|]; split;
       [intros p r [H|[H|[]]]; discriminate
       |split; [discriminate
               |intros p v r [H|[H|[]]]; inversion H; subst; auto]]).
  - destruct (kz_ensure_path kazoo z s1) as [[[]|e] s2]; simpl.
    + destruct (kz_set kazoo z (values (args w)) s2) as [[[]|e] s3]; simpl;
        [|destruct (is_ZookeeperError e); simpl];
        (eexists; rewrite <- !app_assoc; split; [reflexivity|]; split;
         [intros p r [H|[H|[H|[]]]]; inversion H; subst; auto
         |split; [intros _; eexists; right; left; reflexivity
                 |intros p v r [H|[H|[H|[]]]]; inversion H; subst;
                  repeat split; right; right; left; reflexivity]]).
    + destruct (is_ZookeeperError e); simpl;
        (eexists; rewrite <- !app_assoc; split; [reflexivity|]; split;
         [intros p r [H|[H|[]]]; inversion H; subst; auto
         |split; [intros _; eexists; right; left; reflexivity
                 |intros p v r [H|[H|[]]]; inversion H]]).
Qed.

(** X8 (usage errors).
    The usage errors of [set] and [deploy] are reported and end the
    process through [tear_down(1)] before any file is opened and before
    any node is asked for: [set] without [--input] and [--values], [set]
    without [--znode], [deploy] without [--input]. *)
Theorem usage_errors_leave_through_tear_down (w : world E) :
  (truthy (input (args w)) = false -> truthy (values (args w)) = false ->
   cmd_set w =
   tear_down 1
     (with_stdout
        (stdout w ++ ["'Set' action needs option --input or --values positionned."])
        w)) /\
  (truthy (input (args w)) || truthy (values (args w)) = true ->
   truthy (znode (args w)) = false ->
   cmd_set w =
   tear_down 1
     (with_stdout
        (stdout w ++ ["'Set' action needs --znode (or -z) positionned."]) w)) /\
  (truthy (input (args w)) = false ->
   cmd_deploy w =
   tear_down 1
     (with_stdout
        (stdout w ++ ["Deploy action needs an input file (-i or --input)"]) w)).
Proof.
  split; [|split].
  - intros Hi Hv. unfold cmd_set. unfold bind at 1, get_args. rewrite Hi, Hv.
    simpl. now rewrite !bind_assoc, bind_print, bind_tear_down.
  - intros Hiv Hn. unfold cmd_set. unfold bind at 1, get_args.
    apply orb_true_iff in Hiv.
    assert (Hb : negb (truthy (input (args w))) && negb (truthy (values (args w)))
                 = false).
    { destruct Hiv as [-> | ->]; simpl; [reflexivity|apply andb_false_r]. }
    rewrite Hb. unfold bind at 1, ret. unfold check_option. rewrite Hn. simpl.
    now rewrite !bind_assoc, bind_print, bind_tear_down.
  - intros Hi. unfold cmd_deploy. unfold bind at 1, get_args.
    unfold check_option. rewrite Hi. simpl.
    now rewrite !bind_assoc, bind_print, bind_tear_down.
Qed.

End Properties.

(* ===================================================================== *)
(** ** The properties on concrete runs *)
(* ===================================================================== *)

Import Fixture Scenario.

Example basename_ex :
  basename "/a/b/c" = "c" /\ basename "/" = "" /\ basename "x" = "x".
Proof. repeat split. Qed.

Example dirname_ex :
  dirname "/a/b/c" = "/a/b" /\ dirname "/a" = "/" /\ dirname "x" = "".
Proof. repeat split. Qed.

Example abspath_ex :
  abspath "/m" "sub/a.json" = "/m/sub/a.json" /\
  abspath "/m" "../x/./y" = "/x/y" /\
  abspath "/m" "/abs//f" = "/abs/f".
Proof. repeat split. Qed.

Example readlines_ex :
  splitlines_keep (universal_newlines ("a" ++ String CR (String LF "b") ++ nl))
  = ["a" ++ nl; "b" ++ nl].
Proof. reflexivity. Qed.

Example split1_ex :
  split1 ":" "/k:c:/x" = ["/k"; "c:/x"] /\ split1 ":" "nocolon" = ["nocolon"].
Proof. split; reflexivity. Qed.

(** The mapping of [Unreadable]: its second entry cannot be read, and
    [cmd_deploy] leaves with status 1 having called the client not once. *)
Lemma deploy_unreadable_source_no_mutation_witness :
  readlines Unreadable.mapping
  = (Unreadable.pre ++ Unreadable.line :: Unreadable.post)%list /\
  entry_of Unreadable.line = Some ("/k2", "gone.json") /\
  @resolve Unreadable.E (scan_cwd "/m" Unreadable.pre) "gone.json" = None /\
  exists o w',
    cmd_deploy Unreadable.w = (o, w') /\
    (o = Exit 1 \/ exists m, o = Raise (ValueError m)) /\
    calls w' = calls Unreadable.w /\ zk w' = zk Unreadable.w.
Proof.
  split; [reflexivity|]. split; [reflexivity|]. split; [reflexivity|].
  apply (deploy_unreadable_source_no_mutation
           Unreadable.w Unreadable.mapping Unreadable.pre Unreadable.line
           Unreadable.post "/k2" "gone.json"); reflexivity.
Defined.

(** C3 as stated fails: of two unreadable sources, the second is never
    passed to [os.access]. *)
Lemma deploy_scan_misses_later_entries :
  fst (cmd_deploy TwoUnreadable.w) = Exit 1 /\
  stdout (snd (cmd_deploy TwoUnreadable.w)) = ["Can't access or open file gone1.json"] /\
  ~ all_entries_checked TwoUnreadable.lines
      (fs_log (snd (cmd_deploy TwoUnreadable.w))).
Proof.
  assert (Hc : fs_log (snd (cmd_deploy TwoUnreadable.w))
               = [FOpen "map.txt" "/m/map.txt";
                  FAccess "gone1.json" "/m/gone1.json"])
    by (vm_compute; reflexivity).
  split; [vm_compute; reflexivity|]. split; [vm_compute; reflexivity|]. intros H.
  destruct (H ("/k2:gone2.json" ++ nl) "/k2" "gone2.json") as [abs Hin];
    [right; left; reflexivity | reflexivity | reflexivity |].
  rewrite Hc in Hin. destruct Hin as [Hin|[Hin|[]]]; discriminate.
Qed.

Lemma deploy_scan_stops_at_first_unreadable_witness :
  deploy_scan Unreadable.pre (opened Unreadable.w) = (Return tt, Unreadable.w1) /\
  @resolve Unreadable.E (cwd Unreadable.w1) "gone.json" = None /\
  cmd_deploy Unreadable.w =
  (Exit 1,
   with_stdout (stdout Unreadable.w1 ++ ["Can't access or open file gone.json"])
     (with_fs_log (fs_log Unreadable.w1 ++ [FAccess "gone.json" "/m/gone.json"])
        Unreadable.w1)).
Proof.
  split; [reflexivity|]. split; [reflexivity|].
  apply (deploy_scan_stops_at_first_unreadable
           Unreadable.w Unreadable.w1 Unreadable.mapping Unreadable.pre
           Unreadable.line Unreadable.post "/k2" "gone.json"); reflexivity.
Defined.

(** C2 as stated fails: the payload of /k2 is not JSON; nothing is
    reported, [cmd_deploy] ends in the [ValueError] once /k1 is set, and
    /k3 is never set. *)
Lemma deploy_invalid_payload_stops_the_batch :
  fst (cmd_deploy BadPayload.w)
  = Raise (ValueError "Expecting value: line 1 column 1 (char 0)") /\
  stdout (snd (cmd_deploy BadPayload.w)) = ["Creating znode /k1"] /\
  ~ all_entries_set BadPayload.post (calls (snd (cmd_deploy BadPayload.w))).
Proof.
  assert (Hc : calls (snd (cmd_deploy BadPayload.w))
               = [(CExists "/k1", None); (CEnsurePath "/k1", None);
                  (CSet "/k1" (Some (Bytes "{}")), None)])
    by (vm_compute; reflexivity).
  split; [vm_compute; reflexivity|]. split; [vm_compute; reflexivity|]. intros H.
  destruct (H ("/k3:c.json" ++ nl) "/k3" "c.json") as [v [r Hin]];
    [left; reflexivity | reflexivity | reflexivity |].
  rewrite Hc in Hin. destruct Hin as [Hin|[Hin|[Hin|[]]]]; discriminate.
Qed.

Lemma deploy_invalid_payload_aborts_witness :
  deploy_scan (readlines BadPayload.mapping) (opened BadPayload.w)
  = (Return tt, BadPayload.w0) /\
  deploy_commit BadPayload.pre BadPayload.w0 = (Return tt, BadPayload.w1) /\
  @canonical BadPayload.E (rstrip (read "not json")) = None /\
  cmd_deploy BadPayload.w =
  (Raise (ValueError "Expecting value: line 1 column 1 (char 0)"),
   with_fs_log (fs_log BadPayload.w1 ++ [FOpen "bad.json" "/m/bad.json"])
     BadPayload.w1).
Proof.
  split; [vm_compute; reflexivity|]. split; [vm_compute; reflexivity|].
  split; [reflexivity|].
  apply (deploy_invalid_payload_aborts
           BadPayload.w BadPayload.w0 BadPayload.w1 BadPayload.mapping
           BadPayload.pre BadPayload.line BadPayload.post
           "/k2" "bad.json" "not json"); vm_compute; reflexivity.
Defined.


(** The run of [Refused] in full: the four other nodes hold their
    payloads, the refusal is printed, and the batch returns. *)
Example deploy_service_error_run :
  fst (cmd_deploy Refused.w) = Return tt /\
  option_map nodes (zk (snd (cmd_deploy Refused.w)))
  = Some [("/", None); ("/k1", Some "1"); ("/k2", Some "2"); ("/k3", None);
          ("/k4", Some "4"); ("/k5", Some "5")] /\
  stdout (snd (cmd_deploy Refused.w))
  = ["Creating znode /k1"; "Creating znode /k2"; "Creating znode /k3";
     "Error during creation/insertion of keys/values."
     ++ String "010" ("            Full error follows : "
     ++ String "010" " quota exceeded");
     "Creating znode /k4"; "Creating znode /k5"].
Proof.
  split; [vm_compute; reflexivity|]. split; vm_compute; reflexivity.
Qed.

(** C4 as stated fails at depth 2: no glyph repeated twice gives the
    line that is printed for /a/c/d. *)
Lemma tree_line_is_not_one_glyph_repeated :
  stdout (snd (show_tree_node 2 "/a/c/d" Tree.w)) = ["        └── d"] /\
  ~ exists g : string,
      stdout (snd (show_tree_node 2 "/a/c/d" Tree.w)) = [claimed_line g 2 "d"].
Proof.
  split; [reflexivity|].
  intros [g H]. simpl in H. injection H as H.
  apply (f_equal String.length) in H.
  unfold claimed_line in H. cbn [mul] in H.
  rewrite !length_append in H. simpl in H. lia.
Qed.

Lemma tree_line_format_witness :
  contains "d" "/" = false /\
  show_tree_node 2 ("/a/c" ++ "/" ++ "d") Tree.w
  = (Return tt, with_stdout (stdout Tree.w ++ ["        └── d"]) Tree.w) /\
  exists rest,
    stdout (snd (ZNode 5 ("/a/c" ++ "/" ++ "d") 2 Tree.w))
    = (stdout Tree.w ++ "        └── d" :: rest)%list.
Proof.
  split; [reflexivity|].
  exact (tree_line_format 4 2 "/a/c" "d" Tree.w eq_refl).
Defined.

(** The namespace of [Tree], whole: /a/b is gone when it is listed, and
    the walk goes on to /a/c and below. *)
Example tree_run :
  fst (cmd_tree Tree.w) = Return tt /\
  stdout (snd (cmd_tree Tree.w)) = [". a"; "  └─── b"; "  └─── c"; "        └── d"].
Proof. split; reflexivity. Qed.

(** The session expires while /a/c is listed: the walk ends there, and
    /a/e is not printed. *)
Example tree_run_aborted :
  fst (cmd_tree Tree.w') = Raise Tree.expired /\
  stdout (snd (cmd_tree Tree.w')) = [". a"; "  └─── b"; "  └─── c"].
Proof. split; reflexivity. Qed.


(** C8 as stated fails: the answer "not imok" is not the token, and the
    probe is reported healthy. *)
Lemma status_accepts_more_than_the_token :
  stdout (snd (cmd_status Status.w')) = ["OK"] /\
  ~ (fst (cmd_status Status.w') = Exit 0 -> ruok Status.chatty = "imok").
Proof.
  split; [reflexivity|]. intros H. specialize (H eq_refl). discriminate.
Qed.

Lemma status_by_substring_witness :
  zk Status.w = Some (connected healthy) /\
  cmd_status Status.w =
  (Exit 0,
   with_stdout ["OK"]
     (with_calls [(CCommand "ruok", None)] Status.w)) /\
  (fst (cmd_status Status.w) = Exit 0 <-> contains "imok" "imok" = true).
Proof.
  split; [reflexivity|].
  exact (status_by_substring Status.w (connected healthy) "imok"
           (connected healthy) eq_refl eq_refl).
Defined.

Lemma set_from_input_never_writes_the_file_witness :
  cmd_set SetFromFile.w =
  (Return tt,
   with_calls [(CExists "/k", None); (CSet "/k" None, None)]
     (@with_zk SetFromFile.E
        (Some (set_nodes [("/", None); ("/k", None)]
                       (connected SetFromFile.ensemble)))
        (with_args {| target := "zk:2181"; action := "set"; znode := Some "/k";
                      values := None; input := Some "v.json";
                      value := Some "{}" |}
           (with_fs_log [FOpen "v.json" "/m/v.json"] SetFromFile.w)))) /\
  value (args (snd (cmd_set SetFromFile.w))) = Some "{}" /\
  exists r, In (CSet "/k" None, r) (calls (snd (cmd_set SetFromFile.w))).
Proof.
  split; [reflexivity|].
  destruct (set_from_input_never_writes_the_file
              SetFromFile.w "v.json" "/k" ("{}" ++ nl) "{}"
              eq_refl ltac:(discriminate) eq_refl eq_refl ltac:(discriminate)
              eq_refl eq_refl) as [_ [Hv [_ [_ Hs]]]].
  split; [exact Hv|].
  exact (Hs (connected SetFromFile.ensemble) (connected SetFromFile.ensemble)
            eq_refl eq_refl).
Defined.

(** C7: [--action status] against a healthy ensemble leaves with status 0
    while the client is still connected, [stop] and [close] never called;
    so does [--action deploy] on an unreadable source, with status 1;
    [--action tree], which ends in [tear_down], disconnects. *)
Theorem status_exits_without_tear_down :
  let r := main Status.argv (boot Status.E "/") in
  let d := main [("--action", "deploy"); ("--input", "/m/map.txt")]
                (boot Unreadable.E "/") in
  let t := main [("--action", "tree")] (boot Status.E "/") in
  (fst r = Exit 0 /\
   option_map up (zk (snd r)) = Some true /\
   calls (snd r) = [(CStart, None); (CCommand "ruok", None)]) /\
  (fst d = Exit 1 /\
   option_map up (zk (snd d)) = Some true /\
   calls (snd d) = [(CStart, None)]) /\
  (fst t = Exit 0 /\
   option_map up (zk (snd t)) = Some false /\
   calls (snd t) = [(CStart, None); (CGetChildren "/", None);
                    (CStop, None); (CClose, None)]).
Proof. repeat split. Qed.

(** C9: the second source, b.json, is readable in the directory of the
    mapping file, /m; [check_file] has moved the process to /m/sub for the
    first source, b.json is looked up there, and the deployment leaves with
    status 1 before any node is touched. *)
Theorem deploy_resolves_against_previous_source :
  let r := main Subdir.argv (boot Subdir.E "/home") in
  @resolve Subdir.E "/m" "b.json" = Some (File "{}") /\
  fst r = Exit 1 /\
  stdout (snd r) = ["Can't access or open file b.json"] /\
  fs_log (snd r) =
    [FAccess "/m/map.txt" "/m/map.txt"; FChdir "/m"; FOpen "map.txt" "/m/map.txt";
     FAccess "sub/a.json" "/m/sub/a.json"; FChdir "/m/sub";
     FAccess "b.json" "/m/sub/b.json"] /\
  calls (snd r) = [(CStart, None)].
Proof. repeat split. Qed.

(** C1: the second source of the mapping is a directory, which
    [os.access] grants and [open] refuses: the first loop passes, /k1 is
    created and set, and only then does the deployment end, in the
    [OSError] of [open].  So does a source that is missing beside the
    mapping file: b.json is not in /m, the first loop has moved the
    process to /abs, where there is a b.json, and both nodes are set. *)
Theorem deploy_mutates_before_unopenable_source :
  let r := main DirectorySource.argv (boot DirectorySource.E "/") in
  let d := main Drifted.argv (boot Drifted.E "/") in
  (@resolve DirectorySource.E "/m" "d" = Some Directory /\
   (exists m, fst r = Raise (OSError m)) /\
   stdout (snd r) = ["Creating znode /k1"] /\
   fs_log (snd r) =
     [FAccess "/m/map.txt" "/m/map.txt"; FChdir "/m"; FOpen "map.txt" "/m/map.txt";
      FAccess "a.json" "/m/a.json"; FChdir "/m";
      FAccess "d" "/m/d"; FChdir "/m";
      FOpen "a.json" "/m/a.json"; FOpen "d" "/m/d"] /\
   calls (snd r) = [(CStart, None); (CExists "/k1", None);
                    (CEnsurePath "/k1", None);
                    (CSet "/k1" (Some (Bytes "{}")), None)]) /\
  (@resolve Drifted.E "/m" "b.json" = None /\
   fst d = Exit 0 /\
   calls (snd d) = [(CStart, None); (CExists "/k1", None);
                    (CEnsurePath "/k1", None);
                    (CSet "/k1" (Some (Bytes "1")), None);
                    (CExists "/k2", None); (CEnsurePath "/k2", None);
                    (CSet "/k2" (Some (Bytes "2")), None);
                    (CStop, None); (CClose, None)]).
Proof.
  split.
  - split; [reflexivity|]. split; [eexists; vm_compute; reflexivity|].
    split; [vm_compute; reflexivity|]. split; vm_compute; reflexivity.
  - split; [reflexivity|]. split; vm_compute; reflexivity.
Qed.

(* ===================================================================== *)
(** ** The properties of the single actions on concrete runs *)
(* ===================================================================== *)

Import Scenario2.

Lemma check_znode_exists_returns_on_existing_node_witness :
  check_znode_exists Reading.w = (Return tt, Reading.w') /\
  exists z s s',
    znode (args Reading.w) = Some z /\ z <> "" /\
    zk Reading.w = Some s /\ kz_exists kazoo z s = (Ok true, s') /\
    Reading.w' = with_calls (calls Reading.w ++ [(CExists z, None)])
                   (with_zk (Some s') Reading.w).
Proof.
  split; [vm_compute; reflexivity|].
  apply (check_znode_exists_returns_on_existing_node Reading.w Reading.w').
  vm_compute; reflexivity.
Defined.

Lemma cmd_list_prints_children_in_order_witness :
  cmd_list Reading.w =
  (Return tt,
   with_stdout ["b"; "c"]
     (with_calls [(CExists "/a", None); (CGetChildren "/a", None)] Reading.w)).
Proof.
  exact (cmd_list_prints_children_in_order Reading.w "/a"
           (connected Reading.ensemble) (connected Reading.ensemble)
           (connected Reading.ensemble) ["b"; "c"]
           eq_refl eq_refl ltac:(discriminate) eq_refl eq_refl).
Defined.

Lemma cmd_get_prints_stripped_data_witness :
  decodable Reading.data = true /\
  cmd_get Reading.w =
  (Return tt,
   with_stdout ["v1"]
     (with_calls [(CExists "/a", None); (CGet "/a", None)] Reading.w)).
Proof.
  split; [reflexivity|].
  exact (proj1 (cmd_get_prints_stripped_data Reading.w "/a"
                  (connected Reading.ensemble) (connected Reading.ensemble)
                  (connected Reading.ensemble) Reading.data
                  eq_refl eq_refl ltac:(discriminate) eq_refl eq_refl)
               eq_refl).
Defined.

(** Data that is not UTF-8: nothing is printed, and the process ends in
    the error of [decode], the client still connected. *)
Example cmd_get_undecodable_run :
  cmd_get Reading.g =
  (Raise (UnicodeDecodeError
            "'utf-8' codec can't decode byte 0xff in position 0: invalid start byte"),
   with_calls [(CExists "/a", None); (CGet "/a", None)] Reading.g).
Proof. vm_compute. reflexivity. Qed.

Lemma tree_walk_stays_in_subtree_witness :
  walked "/a" Tree.w (snd (ZNode 5 "/a" 0 Tree.w)) /\
  walked "/a" Tree.w (snd (cmd_tree Tree.w)).
Proof.
  exact (tree_walk_stays_in_subtree 5 0 "/a" Tree.w (connected Tree.ensemble)
           eq_refl).
Defined.

Lemma frozen_tree_is_a_snapshot : @snapshot FrozenTree.E.
Proof. intros p s1 s2. reflexivity. Qed.

Lemma tree_render_deterministic_witness :
  same_render FrozenTree.w1 FrozenTree.w2
    (ZNode 5 "/a" 0 FrozenTree.w1) (ZNode 5 "/a" 0 FrozenTree.w2) /\
  same_render FrozenTree.w1 (snd (ZNode 5 "/a" 0 FrozenTree.w1))
    (ZNode 5 "/a" 0 FrozenTree.w1)
    (ZNode 5 "/a" 0 (snd (ZNode 5 "/a" 0 FrozenTree.w1))).
Proof.
  exact (tree_render_deterministic 5 0 "/a" FrozenTree.w1 FrozenTree.w2
           (connected Tree.ensemble) (connected Tree.ensemble)
           frozen_tree_is_a_snapshot eq_refl eq_refl).
Defined.

Lemma deploy_ignores_comments_witness :
  filter is_entry_line (readlines Unreadable.mapping)
  = ["/k1:a.json" ++ nl; "/k2:gone.json" ++ nl; "/k3:c.json" ++ nl] /\
  cmd_deploy Unreadable.w =
  bind (deploy_scan (filter is_entry_line (readlines Unreadable.mapping)))
       (fun _ => deploy_commit (filter is_entry_line (readlines Unreadable.mapping)))
       (opened Unreadable.w).
Proof.
  split; [reflexivity|].
  apply (deploy_ignores_comments Unreadable.w Unreadable.mapping); reflexivity.
Defined.

Lemma deploy_malformed_line_blocks_deploy_witness :
  readlines BlankLine.mapping
  = (BlankLine.pre ++ BlankLine.line :: BlankLine.post)%list /\
  exists o w',
    cmd_deploy BlankLine.w = (o, w') /\
    (o = Exit 1 \/ exists m, o = Raise (ValueError m)) /\
    calls w' = calls BlankLine.w /\ zk w' = zk BlankLine.w.
Proof.
  split; [reflexivity|].
  apply (deploy_malformed_line_blocks_deploy BlankLine.w BlankLine.mapping
           BlankLine.pre BlankLine.line BlankLine.post); reflexivity.
Defined.

Lemma deploy_sets_only_mapped_payloads_witness :
  exists new,
    calls (snd (cmd_deploy Refused.w)) = (calls Refused.w ++ new)%list /\
    forall k v r, In (CSet k v, r) new ->
      exists l p payload c,
        In l (readlines Refused.mapping) /\ startswith l "#" = false /\
        entry_of l = Some (k, p) /\
        @resolve Refused.E (scan_cwd "/m" (readlines Refused.mapping)) p
        = Some (File payload) /\
        @canonical Refused.E (rstrip (read payload)) = Some c /\
        v = Some (Bytes c).
Proof.
  apply (deploy_sets_only_mapped_payloads Refused.w Refused.mapping); reflexivity.
Defined.

Lemma frozen_refused_fails_with_service_errors :
  @service_errors_only FrozenRefused.E.
Proof.
  intros z b s. split; [|split]; intros e s' H.
  - discriminate.
  - discriminate.
  - cbv [kazoo FrozenRefused.E Frozen.env Frozen.client kz_set Refused.ensemble
              refuse] in H.
    cbn [lookup] in H. destruct (String.eqb z "/k3").
    + inversion H. reflexivity.
    + destruct (lookup z (nodes s)); inversion H. reflexivity.
Qed.

Lemma frozen_refused_sources_hold_json :
  Forall (@entry_deployable FrozenRefused.E (cwd FrozenRefused.w0))
         (readlines Refused.mapping).
Proof.
  change (readlines Refused.mapping)
    with (Refused.pre ++ Refused.line :: Refused.post)%list.
  unfold Refused.pre, Refused.line, Refused.post. simpl app.
  apply Forall_cons;
    [right; exists "/k1", "a.json", "1", "1"; repeat split|].
  apply Forall_cons;
    [right; exists "/k2", "b.json", "2", "2"; repeat split|].
  apply Forall_cons;
    [right; exists "/k3", "c.json", "3", "3"; repeat split|].
  apply Forall_cons;
    [right; exists "/k4", "d.json", "4", "4"; repeat split|].
  apply Forall_cons;
    [right; exists "/k5", "e.json", "5", "5"; repeat split|].
  apply Forall_nil.
Qed.

Lemma deploy_attempts_every_entry_witness :
  entry_keys (readlines Refused.mapping) = ["/k1"; "/k2"; "/k3"; "/k4"; "/k5"] /\
  exists w',
    cmd_deploy FrozenRefused.w = (Return tt, w') /\
    exists new, calls w' = (calls FrozenRefused.w ++ new)%list /\
                exists_paths new = entry_keys (readlines Refused.mapping).
Proof.
  split; [reflexivity|].
  apply (deploy_attempts_every_entry FrozenRefused.w FrozenRefused.w0
           Refused.mapping (connected Refused.ensemble)
           frozen_refused_fails_with_service_errors);
    try (vm_compute; reflexivity).
  exact frozen_refused_sources_hold_json.
Defined.

Lemma main_runs_the_named_command_witness :
  main Status.argv (boot Status.E "/") =
  bind set_up (fun _ => bind cmd_status (fun _ => tear_down 0))
       (with_args Status.status_args (boot Status.E "/")) /\
  forall w', main Status.argv (boot Status.E "/") <> (Return tt, w').
Proof.
  exact (main_runs_the_named_command Status.argv (boot Status.E "/")
           (boot Status.E "/") Status.status_args eq_refl).
Defined.

Lemma set_values_reach_the_client_as_text_witness :
  main SetValues.argv SetValues.w =
  (Raise (TypeError "Invalid type for 'value' (must be a byte string)"),
   with_calls [(CStart, None); (CExists "/k", None);
               (CSet "/k" (Some (Str "{}")), Some SetValues.refusal)]
     (@with_zk SetFromFile.E (Some (connected SetFromFile.ensemble))
        (with_args {| target := "zk:2181"; action := "set"; znode := Some "/k";
                      values := Some (Str "{}"); input := None; value := None |}
           SetValues.w))).
Proof.
  exact (set_values_reach_the_client_as_text SetValues.w "/k" "{}" "{}"
           (connected SetFromFile.ensemble) (connected SetFromFile.ensemble)
           (connected SetFromFile.ensemble) SetValues.refusal
           ltac:(discriminate) ltac:(discriminate)
           eq_refl eq_refl eq_refl eq_refl eq_refl).
Defined.

Lemma create_and_set_creates_before_setting_witness :
  exists new,
    calls (snd (create_and_set (staged "/k9" "{}" "v.json" SetFromFile.w)))
    = (calls (staged "/k9" "{}" "v.json" SetFromFile.w) ++ new)%list /\
    (forall p r, In (CEnsurePath p, r) new -> false = false /\ p = "/k9") /\
    (false = false -> exists r, In (CEnsurePath "/k9", r) new) /\
    (forall p v r, In (CSet p v, r) new ->
       p = "/k9" /\
       v = values (args (staged "/k9" "{}" "v.json" SetFromFile.w)) /\
       (false = true \/ In (CEnsurePath "/k9", None) new)).
Proof.
  exact (create_and_set_creates_before_setting
           (staged "/k9" "{}" "v.json" SetFromFile.w) "/k9"
           (connected SetFromFile.ensemble) (connected SetFromFile.ensemble)
           false eq_refl eq_refl eq_refl).
Defined.
